(** * yt-downloader: format selection, acquisition and export pipelines

    A shallow embedding of the Go sources

    - package [youtube], [internal/youtube/downloader.go]: format
      selection, the three acquisition strategies, the progress reader,
      [sanitizeFilename];
    - package [ffmpeg], the processor: [TrimVideoWithProgress];
    - package [main], the application: [App.ExportClip].

    Conventions of the embedding.

    - A Go [string] is a sequence of bytes: Rocq's [string] (a list of 8-bit
      [ascii]).  [len] is [String.length].
    - Go [int] fields that are only compared ([Height], [Bitrate],
      [AudioChannels], [MaxHeight]) are [Z].  The [int64] byte counter of
      [progressReader] is a [Z] with its wrap-around written out.
    - [float64] progress fractions are exact rationals [Q]; equality of
      fractions is [Qeq].  Only comparisons, one subtraction, divisions
      and [base + p*weight] are performed on them.
    - The file system is the finite set of paths that exist; [os.Remove]
      removes the path.
    - What the outside world decides (what a stream delivers, whether a
      subprocess succeeds) is an explicit argument of the model.
    - The functions of Go's standard library that the sources call
      ([strings], [strconv.ParseInt], [filepath]) are modelled from their
      documentation. *)

From Stdlib Require Import ZArith QArith Qminmax Lqa Lia Bool List String Ascii.
From stdpp Require Import base list strings gmap.

#[local] Set Warnings "-clear-no-such-hyp".

Local Open Scope string_scope.
Local Open Scope list_scope.
Local Open Scope Z_scope.

(** ** Go's [strings] package, on byte strings *)

Module strings.

(** [strings.HasPrefix(s, prefix)] *)
Fixpoint HasPrefix (s pre : string) {struct pre} : bool :=
  match pre with
  | EmptyString => true
  | String c pre' =>
      match s with
      | EmptyString => false
      | String d s' => Ascii.eqb d c && HasPrefix s' pre'
      end
  end.

(** [strings.Contains(s, substr)]: [substr] starts at some offset of [s]. *)
Fixpoint Contains (s sub : string) : bool :=
  HasPrefix s sub ||
  match s with
  | EmptyString => false
  | String _ s' => Contains s' sub
  end.

(** [strings.TrimPrefix(s, prefix)] *)
Fixpoint dropBytes (n : nat) (s : string) : string :=
  match n, s with
  | S k, String _ s' => dropBytes k s'
  | _, _ => s
  end.

Definition TrimPrefix (s pre : string) : string :=
  if HasPrefix s pre then dropBytes (String.length pre) s else s.

(** [s[:n]] for [n <= len(s)] *)
Fixpoint takeBytes (n : nat) (s : string) : string :=
  match n, s with
  | S k, String c s' => String c (takeBytes k s')
  | _, _ => EmptyString
  end.

(** [strings.ReplaceAll(s, old, new)] for a non-empty [old]: the
    occurrences of [old] are replaced from left to right without overlap.
    [skip] counts the bytes of a matched occurrence still to be passed. *)
Fixpoint replaceFrom (skip : nat) (s old new : string) : string :=
  match s with
  | EmptyString => EmptyString
  | String c s' =>
      match skip with
      | S k => replaceFrom k s' old new
      | O =>
          if HasPrefix s old
          then new ++ replaceFrom (String.length old - 1) s' old new
          else String c (replaceFrom 0 s' old new)
      end
  end.

Definition ReplaceAll (s old new : string) : string := replaceFrom 0 s old new.

Definition code (c : ascii) : Z := Z.of_N (N_of_ascii c).

(** The white space of [unicode.IsSpace], as the UTF-8 bytes of each rune:
    one byte for TAB, LF, VT, FF, CR and SPACE; two bytes for U+0085 and
    U+00A0; three bytes for U+1680, U+2000..U+200A, U+2028, U+2029, U+202F,
    U+205F and U+3000.  A byte sequence that is not valid UTF-8 decodes to
    U+FFFD, which is not white space. *)
Definition isSpace1 (c0 : ascii) : bool :=
  let b := code c0 in
  (b =? 9) || (b =? 10) || (b =? 11) || (b =? 12) || (b =? 13) || (b =? 32).

Definition isSpace2 (c0 c1 : ascii) : bool :=
  (code c0 =? 194) && ((code c1 =? 133) || (code c1 =? 160)).

Definition isSpace3 (c0 c1 c2 : ascii) : bool :=
  let b0 := code c0 in let b1 := code c1 in let b2 := code c2 in
  ((b0 =? 225) && (b1 =? 154) && (b2 =? 128))
  || ((b0 =? 226) && (b1 =? 128)
      && (((128 <=? b2) && (b2 <=? 138)) || (b2 =? 168) || (b2 =? 169)
          || (b2 =? 175)))
  || ((b0 =? 226) && (b1 =? 129) && (b2 =? 159))
  || ((b0 =? 227) && (b1 =? 128) && (b2 =? 128)).

(** Strip, from the front, the runes recognised by [p1], [p2], [p3]. *)
Fixpoint trimFront (p1 : ascii -> bool) (p2 : ascii -> ascii -> bool)
         (p3 : ascii -> ascii -> ascii -> bool) (s : string) : string :=
  match s with
  | EmptyString => s
  | String c0 r0 =>
      if p1 c0 then trimFront p1 p2 p3 r0
      else
        match r0 with
        | EmptyString => s
        | String c1 r1 =>
            if p2 c0 c1 then trimFront p1 p2 p3 r1
            else
              match r1 with
              | EmptyString => s
              | String c2 r2 =>
                  if p3 c0 c1 c2 then trimFront p1 p2 p3 r2 else s
              end
        end
  end.

Definition TrimLeftSpace (s : string) : string :=
  trimFront isSpace1 isSpace2 isSpace3 s.

(** From the back: the same runes, read on the reversed string. *)
Definition TrimRightSpace (s : string) : string :=
  String.rev
    (trimFront isSpace1 (fun c1 c0 => isSpace2 c0 c1)
               (fun c2 c1 c0 => isSpace3 c0 c1 c2) (String.rev s)).

(** [strings.TrimSpace(s)] *)
Definition TrimSpace (s : string) : string := TrimRightSpace (TrimLeftSpace s).

(** [strings.Trim(s, cutset)] for a cutset of one ASCII byte [b] *)
Definition noRune2 (_ _ : ascii) : bool := false.
Definition noRune3 (_ _ _ : ascii) : bool := false.

Definition TrimByte (s : string) (b : ascii) : string :=
  let front := trimFront (Ascii.eqb b) noRune2 noRune3 in
  front (String.rev (front (String.rev s))).

(** [strings.Split(s, sep)] for a separator of one byte *)
Fixpoint SplitByte (s : string) (sep : ascii) : list string :=
  match s with
  | EmptyString => [EmptyString]
  | String c s' =>
      let r := SplitByte s' sep in
      if Ascii.eqb c sep then EmptyString :: r
      else
        match r with
        | [] => [String c EmptyString]
        | hd :: tl => String c hd :: tl
        end
  end.

End strings.

(** ** Go's [strconv.ParseInt(s, 10, 64)] *)

Module strconv.

Definition digit (c : ascii) : option Z :=
  let b := strings.code c in
  if (48 <=? b) && (b <=? 57) then Some (b - 48) else None.

(** the digits of [s], most significant first; [None] on any other byte *)
Fixpoint parseDigits (acc : Z) (s : string) : option Z :=
  match s with
  | EmptyString => Some acc
  | String c s' =>
      match digit c with
      | Some d => parseDigits (acc * 10 + d) s'
      | None => None
      end
  end.

Definition parseUnsigned (s : string) : option Z :=
  match s with
  | EmptyString => None
  | _ => parseDigits 0 s
  end.

(** [Some n] where Go returns [n] with a [nil] error: an optional sign, at
    least one digit, nothing but digits, and a value that fits [int64]. *)
Definition ParseInt (s : string) : option Z :=
  match s with
  | EmptyString => None
  | String c s' =>
      let neg := Ascii.eqb c "-" in
      let body := if Ascii.eqb c "+" || neg then s' else s in
      match parseUnsigned body with
      | None => None
      | Some un =>
          let n := if neg then - un else un in
          if (- 2 ^ 63 <=? n) && (n <? 2 ^ 63) then Some n else None
      end
  end.

End strconv.

(** ** The runtime the pipelines act on

    The files that exist, the values delivered so far to the job's
    progress sink, and the number of subprocesses started. *)

Module rt.

Record Sys := mkSys {
  files    : gset string;
  emitted  : list Q;
  launched : nat
}.

Definition M (A : Type) : Type := Sys -> A * Sys.

Definition ret {A} (a : A) : M A := fun s => (a, s).

Definition bind {A B} (m : M A) (k : A -> M B) : M B :=
  fun s => let '(a, s') := m s in k a s'.

(** the progress sink of the job receives the values [ps], in order *)
Definition emit (ps : list Q) : M unit :=
  fun s => (tt, mkSys (files s) (emitted s ++ ps) (launched s)).

(** [os.Create(path)] that succeeds *)
Definition create (path : string) : M unit :=
  fun s => (tt, mkSys ({[path]} ∪ files s) (emitted s) (launched s)).

(** [os.Remove(path)] with its error dropped *)
Definition remove (path : string) : M unit :=
  fun s => (tt, mkSys (files s ∖ {[path]}) (emitted s) (launched s)).

(** [os.Stat(path)]: is the file there *)
Definition exists_ (path : string) : M bool :=
  fun s => (bool_decide (path ∈ files s), s).

(** [cmd.Run()] / [cmd.Start()]: one more subprocess *)
Definition launch : M unit :=
  fun s => (tt, mkSys (files s) (emitted s) (S (launched s))).

Definition when (b : bool) (m : M unit) : M unit := if b then m else ret tt.

Inductive result (A : Type) : Type :=
| Ok (a : A)
| Err (msg : string).
Arguments Ok {A} a.
Arguments Err {A} msg.

Definition isErr {A} (r : result A) : bool :=
  match r with Ok _ => false | Err _ => true end.

Definition start : Sys := mkSys ∅ [] 0.

End rt.

Notation "'let*' x := m 'in' k" := (rt.bind m (fun x => k))
  (at level 10, x name, m at level 100, k at level 200).
Notation "'run' m 'then' k" := (rt.bind m (fun _ => k))
  (at level 10, m at level 100, k at level 200).

(** ** Package [youtube]: the stream variant and its selection *)

Module youtube.

(** The fields of [youtube.Format] (github.com/kkdai/youtube/v2) that the
    downloader reads. *)
Record Format := mkFormat {
  MimeType      : string;
  Width         : Z;
  Height        : Z;
  Bitrate       : Z;
  AudioChannels : Z
}.

Definition FormatList := list Format.

(** *** The three ranking loops

    Each loop keeps [bestIdx] and replaces it by [i] when the loop body
    says so; the model carries the element [formats[bestIdx]] instead of its
    index.  [better f best] is the body: [true] where it assigns
    [bestIdx = i]. *)

Fixpoint pickLoop (better : Format -> Format -> bool)
         (best : Format) (rest : list Format) : Format :=
  match rest with
  | [] => best
  | f :: rest' => pickLoop better (if better f best then f else best) rest'
  end.

Definition pickBy (better : Format -> Format -> bool)
           (formats : list Format) : option Format :=
  match formats with
  | [] => None
  | f0 :: rest => Some (pickLoop better f0 rest)
  end.

(** body of the loop of [pickBestVideoOnly] *)
Definition betterVideoOnly (f best : Format) : bool :=
  if Height best <? Height f then true
  else (Height f =? Height best) && (Bitrate best <? Bitrate f).

(** body of the loop of [pickBestAudioOnly] *)
Definition betterAudioOnly (f best : Format) : bool :=
  Bitrate best <? Bitrate f.

(** body of the loop of [pickBestWithAudio] *)
Definition betterWithAudio (f best : Format) : bool :=
  if (Height f =? 720) && negb (Height best =? 720) then true
  else if (Height best =? 720) && negb (Height f =? 720) then false
  else if Height best <? Height f then true
  else (Height f =? Height best) && (Bitrate best <? Bitrate f).

Definition pickBestVideoOnly := pickBy betterVideoOnly.
Definition pickBestAudioOnly := pickBy betterAudioOnly.
Definition pickBestWithAudio := pickBy betterWithAudio.

(** *** [selectFormat] *)

(** The first loop of [selectFormat]: one pass that appends to the three
    candidate slices. *)
Fixpoint classify (formats : FormatList)
         (mp4H264 mp4Any withAudio : list Format)
  : list Format * list Format * list Format :=
  match formats with
  | [] => (mp4H264, mp4Any, withAudio)
  | f :: rest =>
      if (0 <? AudioChannels f) && strings.Contains (MimeType f) "video" then
        let withAudio' := withAudio ++ [f] in
        if strings.Contains (MimeType f) "video/mp4" then
          let mp4Any' := mp4Any ++ [f] in
          if strings.Contains (MimeType f) "avc1"
             && strings.Contains (MimeType f) "mp4a"
          then classify rest (mp4H264 ++ [f]) mp4Any' withAudio'
          else classify rest mp4H264 mp4Any' withAudio'
        else classify rest mp4H264 mp4Any withAudio'
      else classify rest mp4H264 mp4Any withAudio
  end.

(** The last loop of [selectFormat]: the first video-tagged format. *)
Fixpoint firstVideo (formats : FormatList) : option Format :=
  match formats with
  | [] => None
  | f :: rest =>
      if strings.Contains (MimeType f) "video" then Some f else firstVideo rest
  end.

Definition selectFormat (formats : FormatList) : option Format :=
  let '(mp4H264, mp4Any, withAudio) := classify formats [] [] [] in
  match pickBestWithAudio mp4H264 with
  | Some best => Some best
  | None =>
      match pickBestWithAudio mp4Any with
      | Some best => Some best
      | None =>
          match pickBestWithAudio withAudio with
          | Some best => Some best
          | None => firstVideo formats
          end
      end
  end.

(** *** [selectMuxFormats] *)

(** the filter of the first loop: what is not skipped by a [continue] *)
Definition isVideoOnlyCandidate (f : Format) : bool :=
  if negb (AudioChannels f =? 0) then false
  else if negb (strings.Contains (MimeType f) "video") then false
  else
    let isMP4 := strings.Contains (MimeType f) "video/mp4" in
    let isWebM := strings.Contains (MimeType f) "video/webm" in
    if negb isMP4 && negb isWebM then false else true.

(** the filter of the second loop *)
Definition isAudioOnlyCandidate (f : Format) : bool :=
  if AudioChannels f <=? 0 then false
  else if negb (strings.Contains (MimeType f) "audio") then false
  else
    let isMP4 := strings.Contains (MimeType f) "audio/mp4" in
    let isWebM := strings.Contains (MimeType f) "audio/webm" in
    if negb isMP4 && negb isWebM then false else true.

Definition selectMuxFormats (formats : FormatList)
  : option Format * option Format :=
  let videoOnly := List.filter isVideoOnlyCandidate formats in
  let audioOnly := List.filter isAudioOnlyCandidate formats in
  (pickBestVideoOnly videoOnly, pickBestAudioOnly audioOnly).

(** *** [sanitizeFilename] *)

Definition quote : string := String (ascii_of_nat 34) EmptyString.

Definition invalid : list string :=
  ["/"; "\"; ":"; "*"; "?"; quote; "<"; ">"; "|"].

Definition sanitizeFilename (name : string) : string :=
  let result :=
    fold_left (fun result char => strings.ReplaceAll result char "_")
              invalid name in
  let result := strings.TrimSpace result in
  let result := strings.TrimByte result "." in
  if (200 <? Z.of_nat (String.length result))
  then strings.takeBytes 200 result
  else result.

(** *** Progress *)

(** A progress callback is known by the values that one call of it
    delivers to the progress sink of the job; [None] is Go's [nil]. *)
Definition Callback := Q -> list Q.
Definition ProgressCallback := option Callback.

(** the callback that [App.LoadVideo] passes: it emits the value *)
Definition sink : Callback := fun p => [p].

Definition call (cb : ProgressCallback) (p : Q) : rt.M unit :=
  match cb with
  | Some k => rt.emit (k p)
  | None => rt.ret tt
  end.

Definition Qltb (x y : Q) : bool := negb (Qle_bool y x).

(** The closure returned by [weightedProgress] is never [nil]. *)
Definition weightedProgress (parent : ProgressCallback) (base weight : Q)
  : Callback :=
  fun p =>
    match parent with
    | None => []
    | Some k =>
        let p := if Qltb p 0 then 0%Q else p in
        let p := if Qltb 1 p then 1%Q else p in
        k (base + p * weight)%Q
    end.

Definition wrap64 (z : Z) : Z := (z + 2 ^ 63) mod 2 ^ 64 - 2 ^ 63.

Record progressReader := mkReader {
  total         : Z;
  read          : Z;
  progressCb    : ProgressCallback;
  lastReported  : Q;
  reportedCount : Z
}.

(** [progressReader.Read], for an underlying [Read] that returned [n]
    bytes (the error, if any, is passed on unchanged). *)
Definition Read (pr : progressReader) (n : Z) : rt.M progressReader :=
  let read' := wrap64 (read pr + n) in
  match progressCb pr with
  | Some k =>
      if 0 <? total pr then
        let progress := (inject_Z read' / inject_Z (total pr))%Q in
        if Qle_bool (1 # 100) (progress - lastReported pr)
           || Qle_bool 1 progress
        then
          run (rt.emit (k progress)) then
          rt.ret (mkReader (total pr) read' (progressCb pr) progress
                           (reportedCount pr))
        else rt.ret (mkReader (total pr) read' (progressCb pr)
                              (lastReported pr) (reportedCount pr))
      else rt.ret (mkReader (total pr) read' (progressCb pr)
                            (lastReported pr) (reportedCount pr))
  | None => rt.ret (mkReader (total pr) read' (progressCb pr)
                             (lastReported pr) (reportedCount pr))
  end.

(** [io.Copy(file, reader)]: [reads] are the byte counts returned by the
    successive calls of [Read] that the copy makes until it stops. *)
Fixpoint copyThrough (pr : progressReader) (reads : list Z)
  : rt.M progressReader :=
  match reads with
  | [] => rt.ret pr
  | n :: rest => let* pr' := Read pr n in copyThrough pr' rest
  end.

(** What the network and the disk do during one fetch. *)
Record Fetch := mkFetch {
  streamOk      : bool;    (* GetStreamContext returns no error *)
  contentLength : Z;       (* the size it announces, 0 if unknown *)
  createOk      : bool;    (* os.Create returns no error *)
  reads         : list Z;  (* bytes returned by each Read of the copy *)
  copyOk        : bool     (* io.Copy returns no error *)
}.

(** The shared tail of [downloadToFile] and of the progressive fetch:
    [io.Copy] with or without the progress reader. *)
Definition copyStream (w : Fetch) (progressCb : ProgressCallback)
  : rt.M bool :=
  match progressCb with
  | Some _ =>
      if 0 <? contentLength w then
        let reader := mkReader (contentLength w) 0 progressCb 0%Q 0 in
        let* _ := copyThrough reader (reads w) in rt.ret (copyOk w)
      else rt.ret (copyOk w)
  | None => rt.ret (copyOk w)
  end.

Definition downloadToFile (w : Fetch) (destPath : string)
           (progressCb : ProgressCallback) : rt.M (rt.result unit) :=
  if negb (streamOk w) then rt.ret (rt.Err "failed to get stream")
  else if negb (createOk w) then rt.ret (rt.Err "failed to create file")
  else
    run (rt.create destPath) then
    let* ok := copyStream w progressCb in
    rt.ret (if ok then rt.Ok tt else rt.Err "copy failed").

(** *** The strategies of [DownloadForPreview] *)

(** [filepath.Join(dir, name)] for a clean [dir] and a one-element [name] *)
Definition Join (dir name : string) : string := dir ++ "/" ++ name.

Definition extensionFromMimeType (mimeType : string) : string :=
  if strings.Contains mimeType "video/mp4" then ".mp4"
  else if strings.Contains mimeType "video/webm" then ".webm"
  else "".

Definition needsSafariTranscode (f : Format) : bool :=
  if strings.Contains (MimeType f) "video/mp4"
     && strings.Contains (MimeType f) "avc1"
     && strings.Contains (MimeType f) "mp4a"
  then false else true.

Definition nonEmpty (s : string) : bool := negb (String.eqb s "").

(** What the outside world does during one acquisition job. *)
Record World := mkWorld {
  video         : option (string * FormatList);
                            (* title and formats; [None] when the id or the
                               metadata cannot be resolved *)
  ytdlpOnPath   : bool;     (* exec.LookPath finds yt-dlp *)
  ytdlpExitOk   : bool;     (* yt-dlp exits with status 0 *)
  ytdlpWrites   : bool;     (* yt-dlp leaves a file at its output path *)
  videoFetch    : Fetch;    (* split-mux: the video-only stream *)
  audioFetch    : Fetch;    (* split-mux: the audio-only stream *)
  muxExitOk     : bool;     (* the mux encoder exits with status 0 *)
  muxWrites     : bool;     (* the mux encoder leaves an output file *)
  progFetch     : Fetch;    (* progressive: the single stream *)
  transcodeOk   : bool      (* the compatibility transcode succeeds *)
}.

Definition downloadWithYtdlp (w : World) (outPath : string)
           (progressCb : ProgressCallback) : rt.M (rt.result unit) :=
  if negb (ytdlpOnPath w) then rt.ret (rt.Err "yt-dlp not found")
  else
    run (call progressCb (1 # 10)) then
    run rt.launch then
    run (rt.when (ytdlpWrites w) (rt.create outPath)) then
    run (call progressCb 1) then
    if negb (ytdlpExitOk w) then rt.ret (rt.Err "yt-dlp error")
    else
      let* there := rt.exists_ outPath in
      if negb there then rt.ret (rt.Err "output file not created")
      else rt.ret (rt.Ok tt).

(** The two decisions of the mux step, and the flags they select. *)
Definition needsVideoTranscode (videoFmt : Format) : bool :=
  strings.Contains (MimeType videoFmt) "vp9"
  || strings.Contains (MimeType videoFmt) "vp09"
  || strings.Contains (MimeType videoFmt) "av01"
  || strings.Contains (MimeType videoFmt) "webm".

Definition needsAudioTranscode (audioFmt : Format) : bool :=
  strings.Contains (MimeType audioFmt) "opus"
  || strings.Contains (MimeType audioFmt) "webm".

Definition videoCodecArgs (videoFmt : Format) : list string :=
  if needsVideoTranscode videoFmt
  then ["-c:v"; "libx264"; "-preset"; "medium"; "-crf"; "18";
        "-pix_fmt"; "yuv420p"]
  else ["-c:v"; "copy"].

Definition audioCodecArgs (audioFmt : Format) : list string :=
  if needsAudioTranscode audioFmt
  then ["-c:a"; "aac"; "-b:a"; "192k"]
  else ["-c:a"; "copy"].

Definition muxArgs (videoFmt audioFmt : Format)
           (videoPath audioPath outPath : string) : list string :=
  ["-y"; "-hide_banner"; "-loglevel"; "error"]
  ++ ["-i"; videoPath; "-i"; audioPath]
  ++ ["-map"; "0:v:0"; "-map"; "1:a:0"]
  ++ videoCodecArgs videoFmt
  ++ audioCodecArgs audioFmt
  ++ ["-movflags"; "+faststart"; "-shortest"; outPath].

(** The three paths that [downloadAndMux] works on. *)
Definition muxVideoPath (title : string) (videoFmt : Format)
           (destDir : string) : string :=
  let videoExt := extensionFromMimeType (MimeType videoFmt) in
  let videoExt := if String.eqb videoExt "" then ".mp4" else videoExt in
  Join destDir (sanitizeFilename title ++ "-video" ++ videoExt).

Definition muxAudioPath (title : string) (audioFmt : Format)
           (destDir : string) : string :=
  let audioExt := extensionFromMimeType (MimeType audioFmt) in
  let audioExt :=
    if String.eqb audioExt "" then
      if strings.Contains (MimeType audioFmt) "audio/mp4"
      then ".m4a" else ".webm"
    else audioExt in
  Join destDir (sanitizeFilename title ++ "-audio" ++ audioExt).

Definition previewPath (title destDir : string) : string :=
  Join destDir (sanitizeFilename title ++ "-preview.mp4").

Definition downloadAndMux (w : World) (title : string)
           (videoFmt audioFmt : Format) (destDir ffmpegPath : string)
           (progressCb : ProgressCallback) : rt.M (rt.result string) :=
  let videoPath := muxVideoPath title videoFmt destDir in
  let audioPath := muxAudioPath title audioFmt destDir in
  let outPath := previewPath title destDir in
  let* r := downloadToFile (videoFetch w) videoPath
              (Some (weightedProgress progressCb 0 (3 # 4))) in
  if rt.isErr r then
    run (rt.remove videoPath) then
    rt.ret (rt.Err "failed to download video stream")
  else
    let* r := downloadToFile (audioFetch w) audioPath
                (Some (weightedProgress progressCb (3 # 4) (1 # 5))) in
    if rt.isErr r then
      run (rt.remove videoPath) then
      run (rt.remove audioPath) then
      rt.ret (rt.Err "failed to download audio stream")
    else
      run rt.launch then
      run (rt.when (muxWrites w) (rt.create outPath)) then
      if negb (muxExitOk w) then
        run (rt.remove videoPath) then
        run (rt.remove audioPath) then
        run (rt.remove outPath) then
        rt.ret (rt.Err "ffmpeg mux failed")
      else
        run (rt.remove videoPath) then
        run (rt.remove audioPath) then
        run (call progressCb 1) then
        rt.ret (rt.Ok outPath).

(** [transcodeToMP4]: [true] when the encoder exits with status 0. *)
Definition transcodeToMP4 (w : World) (outputPath : string) : rt.M bool :=
  run rt.launch then
  run (rt.when (transcodeOk w) (rt.create outputPath)) then
  rt.ret (transcodeOk w).

(** First strategy of [DownloadForPreview]: [Some path] when it returns. *)
Definition tryYtdlp (w : World) (title destDir ffmpegPath : string)
           (progressCb : ProgressCallback) : rt.M (option string) :=
  let outPath := previewPath title destDir in
  if ytdlpOnPath w && nonEmpty ffmpegPath then
    let* r := downloadWithYtdlp w outPath progressCb in
    rt.ret (if rt.isErr r then None else Some outPath)
  else rt.ret None.

(** Second strategy. *)
Definition tryMux (w : World) (title : string) (formats : FormatList)
           (destDir ffmpegPath : string) (progressCb : ProgressCallback)
  : rt.M (option string) :=
  if nonEmpty ffmpegPath then
    match selectMuxFormats formats with
    | (Some v, Some a) =>
        let* r := downloadAndMux w title v a destDir ffmpegPath progressCb in
        rt.ret (match r with rt.Ok out => Some out | rt.Err _ => None end)
    | _ => rt.ret None
    end
  else rt.ret None.

(** Third strategy, with the compatibility transcode that follows it. *)
Definition progressive (w : World) (title : string) (formats : FormatList)
           (destDir ffmpegPath : string) (progressCb : ProgressCallback)
  : rt.M (rt.result string) :=
  match selectFormat formats with
  | None => rt.ret (rt.Err "no suitable video format found")
  | Some format =>
      let f := progFetch w in
      if negb (streamOk f) then rt.ret (rt.Err "failed to get stream")
      else
        let ext := extensionFromMimeType (MimeType format) in
        let ext := if String.eqb ext "" then ".mp4" else ext in
        let destPath := Join destDir (sanitizeFilename title ++ ext) in
        if negb (createOk f) then rt.ret (rt.Err "failed to create file")
        else
          run (rt.create destPath) then
          let* ok := copyStream f progressCb in
          if negb ok then
            run (rt.remove destPath) then
            rt.ret (rt.Err "failed to download video")
          else if needsSafariTranscode format && nonEmpty ffmpegPath then
            let preview := previewPath title destDir in
            let* done := transcodeToMP4 w preview in
            if done then
              run (rt.remove destPath) then rt.ret (rt.Ok preview)
            else rt.ret (rt.Ok destPath)
          else rt.ret (rt.Ok destPath)
  end.

Definition DownloadForPreview (w : World) (destDir ffmpegPath : string)
           (progressCb : ProgressCallback) : rt.M (rt.result string) :=
  match video w with
  | None => rt.ret (rt.Err "failed to get video")
  | Some (title, formats) =>
      let* r1 := tryYtdlp w title destDir ffmpegPath progressCb in
      match r1 with
      | Some out => rt.ret (rt.Ok out)
      | None =>
          let* r2 := tryMux w title formats destDir ffmpegPath progressCb in
          match r2 with
          | Some out => rt.ret (rt.Ok out)
          | None =>
              progressive w title formats destDir ffmpegPath progressCb
          end
      end
  end.

End youtube.

(** ** Package [ffmpeg]: trimming with progress *)

Module ffmpeg.

Record TrimOptions := mkTrimOptions {
  InputPath    : string;
  OutputPath   : string;
  StartTime    : Q;
  EndTime      : Q;
  RemoveAudio  : bool;
  MaxHeight    : Z;
  CRF          : Z;
  Preset       : string;
  AudioBitrate : string
}.

(** What the operating system and the encoder do during one export. *)
Record Encoder := mkEncoder {
  mkdirOk : bool;         (* os.MkdirAll returns no error *)
  pipeOk  : bool;         (* cmd.StdoutPipe returns no error *)
  startOk : bool;         (* cmd.Start returns no error *)
  chunks  : list string;  (* what each successful stdout.Read returned *)
  exitOk  : bool          (* cmd.Wait returns no error *)
}.

(** What one call of [TrimVideoWithProgress] did.  The progress callback
    is called from two goroutines: the reader of the encoder's standard
    output and the caller that waits for the process. *)
Record Outcome := mkOutcome {
  result      : rt.result unit;
  started     : nat;      (* calls of cmd.Start *)
  readerCalls : list Q;   (* progressCb values, reader goroutine, in order *)
  waiterCalls : list Q    (* progressCb values, after cmd.Wait *)
}.

Definition failed (msg : string) (n : nat) (calls : list Q) : Outcome :=
  mkOutcome (rt.Err msg) n calls [].

Definition newline : ascii := ascii_of_nat 10.

(** [min(x, 1.0)] as the code writes it *)
Definition capAtOne (progress : Q) : Q :=
  if youtube.Qltb 1 progress then 1%Q else progress.

(** The body of the inner loop of the reader, for one line: the value it
    passes to a non-nil [progressCb], if any. *)
Definition progressOfLine (duration : Q) (line : string) : option Q :=
  if strings.HasPrefix line "out_time_ms=" then
    let timeMs := strings.TrimPrefix line "out_time_ms=" in
    match strconv.ParseInt timeMs with
    | Some ms =>
        let currentTime := (inject_Z ms / 1000000)%Q in
        if youtube.Qltb 0 duration
        then Some (capAtOne (currentTime / duration)%Q)
        else None
    | None => None
    end
  else None.

(** the lines the reader looks at: each chunk is split on its own *)
Definition linesOf (chunks : list string) : list string :=
  flat_map (fun output => strings.SplitByte output newline) chunks.

Definition readerLoop (cbSet : bool) (duration : Q) (chunks : list string)
  : list Q :=
  if cbSet then omap (progressOfLine duration) (linesOf chunks) else [].

(** [existing] answers [os.Stat]; [cbSet] says that [progressCb] is not
    [nil].  The encoder's arguments are not modelled. *)
Definition TrimVideoWithProgress (ffmpegPath : string)
           (existing : gset string) (enc : Encoder)
           (opts : TrimOptions) (cbSet : bool) : Outcome :=
  if String.eqb ffmpegPath "" then failed "ffmpeg path not set" 0 []
  else if negb (bool_decide (InputPath opts ∈ existing))
  then failed "input file does not exist" 0 []
  else if Qle_bool (EndTime opts) (StartTime opts)
  then failed "end time must be greater than start time" 0 []
  else if negb (mkdirOk enc)
  then failed "failed to create output directory" 0 []
  else
    let duration := (EndTime opts - StartTime opts)%Q in
    if negb (pipeOk enc) then failed "failed to get stdout pipe" 0 []
    else if negb (startOk enc) then failed "failed to start ffmpeg" 1 []
    else
      let calls := readerLoop cbSet duration (chunks enc) in
      if negb (exitOk enc) then failed "ffmpeg error" 1 calls
      else mkOutcome (rt.Ok tt) 1 calls (if cbSet then [1%Q] else []).


End ffmpeg.

(** ** Package [main]: [App.ExportClip] *)

Module main.

Record ExportOptions := mkExportOptions {
  StartTime   : Q;
  EndTime     : Q;
  RemoveAudio : bool;
  Filename    : string;
  OutputDir   : string;
  Quality     : string
}.

(** The application state that [ExportClip] reads. *)
Record App := mkApp {
  ffmpegInstaller  : option string;  (* [None]: no installer; else the
                                        result of GetFFmpegPath *)
  currentVideoPath : string;         (* videoServer.GetCurrentVideoPath() *)
  existing         : gset string;    (* the files that exist *)
  encoder          : ffmpeg.Encoder
}.

Inductive Event :=
| ExportProgress (p : Q)
| ExportComplete (outputPath : string).

Record Exported := mkExported {
  error       : option string;
  invocations : nat;            (* encoder processes started *)
  fromReader  : list Event;     (* emitted by the reader goroutine *)
  fromCaller  : list Event      (* emitted by the calling goroutine *)
}.

Definition rejected (msg : string) : Exported := mkExported (Some msg) 0 [] [].

(** the quality table of [ExportClip] *)
Definition tier (quality : string) : Z * Z * string * string :=
  if String.eqb quality "1080p" then (1080, 21, "slow", "160k")
  else if String.eqb quality "720p" then (720, 23, "medium", "128k")
  else if String.eqb quality "480p" then (480, 26, "medium", "112k")
  else if String.eqb quality "360p" then (360, 28, "fast", "96k")
  else (0, 23, "medium", "128k").

Section ExportClip.

(** [filepath.IsAbs], which depends on the platform *)
Variable IsAbs : string -> bool.

(** the output path built from [opts.OutputDir] and [opts.Filename]
    (sanitised name, [clip] when empty, [.mp4] appended when missing) *)
Variable outputPathOf : string -> string -> string.

Definition ExportClip (a : App) (opts : ExportOptions) : Exported :=
  match ffmpegInstaller a with
  | None => rejected "FFmpeg is not installed"
  | Some ffmpegPath =>
      if String.eqb ffmpegPath "" then rejected "FFmpeg is not installed"
      else
        let inputPath := currentVideoPath a in
        if String.eqb inputPath "" then rejected "no video loaded"
        else if negb (IsAbs (OutputDir opts))
        then rejected "output directory must be an absolute path"
        else
          let outputPath := outputPathOf (OutputDir opts) (Filename opts) in
          let '(maxHeight, crf, preset, audioBitrate) := tier (Quality opts) in
          let trimOpts :=
            ffmpeg.mkTrimOptions inputPath outputPath
              (StartTime opts) (EndTime opts) (RemoveAudio opts)
              maxHeight crf preset audioBitrate in
          let o := ffmpeg.TrimVideoWithProgress ffmpegPath (existing a)
                     (encoder a) trimOpts true in
          match ffmpeg.result o with
          | rt.Err msg =>
              mkExported (Some ("failed to export clip: " ++ msg)%string)
                (ffmpeg.started o)
                (map ExportProgress (ffmpeg.readerCalls o))
                (map ExportProgress (ffmpeg.waiterCalls o))
          | rt.Ok _ =>
              mkExported None (ffmpeg.started o)
                (map ExportProgress (ffmpeg.readerCalls o))
                (map ExportProgress (ffmpeg.waiterCalls o)
                 ++ [ExportComplete outputPath])
          end
  end.

End ExportClip.

(** [filepath.IsAbs] on Unix *)
Definition IsAbsUnix (path : string) : bool := strings.HasPrefix path "/".

End main.

(** ** The stated properties, in the words of the specification *)

Module catalog.
Import youtube.

(** "has both tracks": audio channels, and a video MIME type *)
Definition bothTracks (f : Format) : bool :=
  (0 <? AudioChannels f) && strings.Contains (MimeType f) "video".

(** the four tiers of progressive selection, most preferred first *)
Definition tier1 (f : Format) : bool :=
  bothTracks f && strings.Contains (MimeType f) "video/mp4"
  && (strings.Contains (MimeType f) "avc1"
      && strings.Contains (MimeType f) "mp4a").

Definition tier2 (f : Format) : bool :=
  bothTracks f && strings.Contains (MimeType f) "video/mp4".

Definition tier3 (f : Format) : bool := bothTracks f.

Definition tier4 (f : Format) : bool := strings.Contains (MimeType f) "video".

(** "prefer height exactly 720; failing that, prefer strictly greater
    height; on equal height, prefer greater bitrate": [f] is strictly
    preferred to [g]. *)
Definition prefers720 (f g : Format) : Prop :=
  (Height f = 720 /\ Height g <> 720)
  \/ ((Height f = 720 <-> Height g = 720)
      /\ (Height g < Height f
          \/ (Height f = Height g /\ Bitrate g < Bitrate f))).

(** "strictly greatest height, tie-break greatest bitrate" *)
Definition prefersTaller (f g : Format) : Prop :=
  Height g < Height f \/ (Height f = Height g /\ Bitrate g < Bitrate f).

(** "strictly greatest bitrate" *)
Definition prefersBitrate (f g : Format) : Prop := Bitrate g < Bitrate f.

(** [res] is a candidate to which no candidate is strictly preferred. *)
Definition chosen (prefers : Format -> Format -> Prop)
           (cands : list Format) (res : option Format) : Prop :=
  exists r, res = Some r /\ In r cands
            /\ forall g, In g cands -> ~ prefers g r.

(** The first non-empty list of a sequence of candidate lists. *)
Fixpoint firstNonEmpty (tiers : list (list Format)) : option (list Format) :=
  match tiers with
  | [] => None
  | [] :: rest => firstNonEmpty rest
  | c :: _ => Some c
  end.

(** Progressive selection as the specification words it: the ranking
    applies within each of the four tiers. *)
Definition progressiveAsStated (formats : FormatList)
           (res : option Format) : Prop :=
  match firstNonEmpty [List.filter tier1 formats; List.filter tier2 formats;
                       List.filter tier3 formats; List.filter tier4 formats]
  with
  | Some cands => chosen prefers720 cands res
  | None => res = None
  end.

(** Progressive selection as the code has it: the ranking applies within
    the three tiers that carry both tracks; the last resort is the first
    video-tagged variant in list order. *)
Definition progressiveAsBuilt (formats : FormatList)
           (res : option Format) : Prop :=
  match firstNonEmpty [List.filter tier1 formats; List.filter tier2 formats;
                       List.filter tier3 formats]
  with
  | Some cands =>
      chosen prefers720 cands res
      /\ ((exists g, In g cands /\ Height g = 720) ->
          exists r, res = Some r /\ Height r = 720)
  | None => res = head (List.filter tier4 formats)
  end.

(** the containers accepted on each side of a split pair *)
Definition videoOnlyInMp4OrWebm (f : Format) : bool :=
  (AudioChannels f =? 0)
  && (strings.Contains (MimeType f) "video/mp4"
      || strings.Contains (MimeType f) "video/webm").

Definition audioOnlyInMp4OrWebm (f : Format) : bool :=
  (0 <? AudioChannels f)
  && (strings.Contains (MimeType f) "audio/mp4"
      || strings.Contains (MimeType f) "audio/webm").

(** One side of a split pair: nothing when there is no candidate, else a
    candidate to which none is strictly preferred. *)
Definition side (prefers : Format -> Format -> Prop)
           (cands : list Format) (res : option Format) : Prop :=
  match cands with
  | [] => res = None
  | _ => chosen prefers cands res
  end.

End catalog.

(** ** The mux step, in the words of the specification *)

Module muxing.
Import youtube.

(** codec tags as the sources test them: [avc1] is H.264, [mp4a] is AAC *)
Definition isH264 (f : Format) : bool := strings.Contains (MimeType f) "avc1".
Definition isAAC (f : Format) : bool := strings.Contains (MimeType f) "mp4a".

Definition copyVideo : list string := ["-c:v"; "copy"].
Definition copyAudio : list string := ["-c:a"; "copy"].
Definition encodeVideo : list string :=
  ["-c:v"; "libx264"; "-preset"; "medium"; "-crf"; "18";
   "-pix_fmt"; "yuv420p"].
Definition encodeAudio : list string := ["-c:a"; "aac"; "-b:a"; "192k"].

(** "copies the video track if and only if its codec is H.264, and the
    audio track if and only if its codec is AAC" *)
Definition copiesAsStated (videoFmt audioFmt : Format) : Prop :=
  (videoCodecArgs videoFmt = copyVideo <-> isH264 videoFmt = true)
  /\ (audioCodecArgs audioFmt = copyAudio <-> isAAC audioFmt = true).

(** the MIME type mentions one of the tags *)
Definition mentions (f : Format) (tags : list string) : bool :=
  existsb (strings.Contains (MimeType f)) tags.

Definition reencodedVideoTags : list string := ["vp9"; "vp09"; "av01"; "webm"].
Definition reencodedAudioTags : list string := ["opus"; "webm"].

End muxing.

(** ** Fetching, in the words of the specification *)

Module fetching.
Import youtube.

(** the fetch ends with an error: no stream, no file, or a failed copy *)
Definition fetchFails (w : Fetch) : bool :=
  negb (streamOk w) || negb (createOk w) || negb (copyOk w).

(** "an I/O error occurs mid-transfer": the copy is what fails *)
Definition failsMidTransfer (w : Fetch) : bool :=
  streamOk w && createOk w && negb (copyOk w).

(** "the partially written destination file is deleted before the error
    is returned", read on the fetch operation [downloadToFile] itself *)
Definition fetchCleansUpAsStated (w : Fetch) (destPath : string)
           (progressCb : ProgressCallback) (s : rt.Sys) : Prop :=
  failsMidTransfer w = true ->
  rt.isErr (fst (downloadToFile w destPath progressCb s)) = true
  /\ destPath ∉ rt.files (snd (downloadToFile w destPath progressCb s)).

(** the destination of the progressive fetch *)
Definition progressivePath (title : string) (format : Format)
           (destDir : string) : string :=
  let ext := extensionFromMimeType (MimeType format) in
  let ext := if String.eqb ext "" then ".mp4" else ext in
  Join destDir (sanitizeFilename title ++ ext).

(** a stream cut after 40 of its 100 bytes *)
Definition cutStream : Fetch := mkFetch true 100 true [40] false.

(** a stream delivered whole, in three reads and the end-of-file read *)
Definition wholeStream : Fetch := mkFetch true 100 true [40; 35; 25; 0] true.


End fetching.

(** ** Progress reporting, in the words of the specification *)

Module reporting.
Import youtube.

(** the values that [m] adds to the progress sink when run from [s] *)
Definition segment {A} (m : rt.M A) (s : rt.Sys) : list Q :=
  drop (length (rt.emitted s)) (rt.emitted (snd (m s))).

(** "fires only when the fraction has increased by at least 0.01 since the
    last reported value or has reached 1.0"; [last] is the value reported
    before the trace, 0 at the start of a transfer *)
Fixpoint coalesced (last : Q) (trace : list Q) : Prop :=
  match trace with
  | [] => True
  | p :: rest => ((1 # 100) <= p - last \/ 1 <= p)%Q /\ coalesced p rest
  end.

(** "a callback with fraction 1.0 fires at completion" *)
Definition endsWithOne (trace : list Q) : Prop :=
  exists before p, trace = before ++ [p] /\ (p == 1)%Q.

Definition sumZ (l : list Z) : Z := fold_right Z.add 0 l.

(** "no later callback reports a smaller value than an earlier one" *)
Fixpoint nondecreasing (trace : list Q) : Prop :=
  match trace with
  | [] => True
  | p :: rest => Forall (fun q => (p <= q)%Q) rest /\ nondecreasing rest
  end.

Definition within01 (trace : list Q) : Prop :=
  Forall (fun p => (0 <= p <= 1)%Q) trace.

(** The fractions handed to the callback of a [progressReader] with a
    known total, over the successive reads of one copy. *)
Fixpoint reportedFractions (total read : Z) (last : Q) (reads : list Z)
  : list Q :=
  match reads with
  | [] => []
  | n :: rest =>
      let read' := wrap64 (read + n) in
      let progress := (inject_Z read' / inject_Z total)%Q in
      if Qle_bool (1 # 100) (progress - last) || Qle_bool 1 progress
      then progress :: reportedFractions total read' progress rest
      else reportedFractions total read' last rest
  end.

(** The values that one copy adds to the progress sink. *)
Definition streamReports (w : Fetch) (cb : ProgressCallback) : list Q :=
  match cb with
  | Some k =>
      if 0 <? contentLength w
      then concat (map k (reportedFractions (contentLength w) 0 0 (reads w)))
      else []
  | None => []
  end.

(** The values that one fetch adds to the progress sink. *)
Definition fetchReports (w : Fetch) (cb : ProgressCallback) : list Q :=
  if streamOk w && createOk w then streamReports w cb else [].

(** "clamps the raw value first" *)
Definition clamp01 (p : Q) : Q :=
  let p := if Qltb p 0 then 0%Q else p in
  if Qltb 1 p then 1%Q else p.

(** The values that each strategy adds to the progress sink. *)
Definition ytdlpReports (w : World) (ffmpegPath : string)
           (cb : ProgressCallback) : list Q :=
  if ytdlpOnPath w && nonEmpty ffmpegPath then
    match cb with Some k => k (1 # 10) ++ k 1%Q | None => [] end
  else [].

Definition muxReports (w : World) (cb : ProgressCallback) : list Q :=
  fetchReports (videoFetch w) (Some (weightedProgress cb 0 (3 # 4)))
  ++ if fetching.fetchFails (videoFetch w) then []
     else
       fetchReports (audioFetch w)
                    (Some (weightedProgress cb (3 # 4) (1 # 5)))
       ++ if fetching.fetchFails (audioFetch w) then []
          else if muxExitOk w
               then match cb with Some k => k 1%Q | None => [] end
               else [].

Definition tryMuxReports (w : World) (formats : FormatList)
           (ffmpegPath : string) (cb : ProgressCallback) : list Q :=
  if nonEmpty ffmpegPath then
    match selectMuxFormats formats with
    | (Some _, Some _) => muxReports w cb
    | _ => []
    end
  else [].

Definition progressiveReports (w : World) (formats : FormatList)
           (cb : ProgressCallback) : list Q :=
  match selectFormat formats with
  | Some _ => fetchReports (progFetch w) cb
  | None => []
  end.

(** "the sequence of progress values delivered to the job's progress
    callback, across all strategies attempted, is monotonically
    non-decreasing in [0,1]" *)
Definition progressAsStated (w : World) (destDir ffmpegPath : string)
  : Prop :=
  let trace :=
    segment (DownloadForPreview w destDir ffmpegPath (Some sink)) rt.start in
  nondecreasing trace /\ within01 trace.

(** what a stream can do: every read returns a count of bytes, and the
    counts add up to less than 2^63 *)
Definition countable (w : Fetch) : Prop :=
  Forall (fun n => 0 <= n) (reads w) /\ sumZ (reads w) < 2 ^ 63.

(** the stream delivers no more than the length it announced *)
Definition withinLength (w : Fetch) : Prop :=
  sumZ (reads w) <= contentLength w.

End reporting.

(** ** Export, in the words of the specification *)

Module exporting.
Import ffmpeg.




(** an encoder whose first progress block carries a negative time stamp *)
Definition negativeStamp : Encoder :=
  mkEncoder true true true
            ["frame=0" ++ String newline "out_time_ms=-2000000"
             ++ String newline "progress=continue" ++ String newline "";
             "out_time_ms=2500000" ++ String newline "progress=end"
             ++ String newline ""]%string
            true.


(** an application with a video loaded, and a request whose output
    directory is relative *)
Definition loaded : main.App :=
  main.mkApp (Some "/usr/bin/ffmpeg") "/tmp/yt/in.mp4"
             {["/tmp/yt/in.mp4"]} negativeStamp.



Definition joinPath (dir name : string) : string := dir ++ "/" ++ name.

End exporting.

(** ** File names, in the words of the specification *)

Module naming.
Import youtube.

Definition bytes (s : string) : list ascii := list_ascii_of_string s.




(** [a] has no byte that [b] has not, and is not longer than [b] *)
Definition within (a b : string) : Prop :=
  (forall c, In c (bytes a) -> In c (bytes b))
  /\ (String.length a <= String.length b)%nat.

End naming.

(** ** Sample variants *)

Module samples.
Import youtube.

Definition videoOnly480 : Format :=
  mkFormat "video/mp4; codecs=avc1.4d401e" 854 480 1100000 0.
Definition videoOnly720 : Format :=
  mkFormat "video/mp4; codecs=avc1.4d401f" 1280 720 2300000 0.
Definition videoOnly1080 : Format :=
  mkFormat "video/webm; codecs=vp9" 1920 1080 2600000 0.

Definition av480 : Format :=
  mkFormat "video/mp4; codecs=avc1.42001E, mp4a.40.2" 854 480 700000 2.
Definition av720 : Format :=
  mkFormat "video/mp4; codecs=avc1.64001F, mp4a.40.2" 1280 720 1500000 2.
Definition av1080 : Format :=
  mkFormat "video/mp4; codecs=avc1.640028, mp4a.40.2" 1920 1080 3000000 2.

Definition aac128 : Format :=
  mkFormat "audio/mp4; codecs=mp4a.40.2" 0 0 130000 2.
Definition opus160 : Format :=
  mkFormat "audio/webm; codecs=opus" 0 0 160000 2.
Definition eac3 : Format :=
  mkFormat "audio/mp4; codecs=ec-3" 0 0 384000 6.
Definition hevc1080 : Format :=
  mkFormat "video/mp4; codecs=hev1.1.6.L120.90" 1920 1080 2400000 0.

(** a job whose mux encoder fails after it has written part of its output *)
Definition muxFailure : World :=
  mkWorld (Some ("My Video", [videoOnly720; videoOnly1080; aac128; opus160]))
          false false false
          fetching.wholeStream fetching.wholeStream false true
          fetching.wholeStream false.

(** a job whose audio stream is cut *)
Definition audioCut : World :=
  mkWorld (Some ("My Video", [videoOnly720; videoOnly1080; aac128; opus160]))
          false false false
          fetching.wholeStream fetching.cutStream true true
          fetching.wholeStream false.

(** a job whose external downloader exits with an error, whose mux encoder
    fails, and whose progressive fetch succeeds *)
Definition fallsThrough : World :=
  mkWorld (Some ("My Video",
                 [videoOnly720; videoOnly1080; aac128; opus160; av720]))
          true false false
          fetching.wholeStream fetching.wholeStream false true
          fetching.wholeStream false.

End samples.

(** ** Package [youtube]: [ExtractVideoID] and the metadata of a video *)

Module videoid.

(** the class [[a-zA-Z0-9_-]] of the two patterns *)
Definition isIdChar (c : ascii) : bool :=
  let b := strings.code c in
  ((97 <=? b) && (b <=? 122)) || ((65 <=? b) && (b <=? 90))
  || ((48 <=? b) && (b <=? 57)) || (b =? 95) || (b =? 45).

Fixpoint allIdChars (s : string) : bool :=
  match s with
  | EmptyString => true
  | String c s' => isIdChar c && allIdChars s'
  end.

(** the group [([a-zA-Z0-9_-]{11})] matched at the start of [s] *)
Definition idAt (s : string) : option string :=
  let id := strings.takeBytes 11 s in
  if (String.length id =? 11)%nat && allIdChars id then Some id else None.

(** the alternatives of the first pattern, in their order *)
Definition markers : list string :=
  ["v="; "/v/"; "youtu.be/"; "/embed/"; "/shorts/"].

(** the first pattern matched at the start of [s]: the first alternative
    that is followed by eleven characters of the class *)
Fixpoint afterMarker (ms : list string) (s : string) : option string :=
  match ms with
  | [] => None
  | m :: rest =>
      if strings.HasPrefix s m then
        match idAt (strings.dropBytes (String.length m) s) with
        | Some id => Some id
        | None => afterMarker rest s
        end
      else afterMarker rest s
  end.

(** the leftmost match of the first pattern *)
Fixpoint findMarked (s : string) : option string :=
  match afterMarker markers s with
  | Some id => Some id
  | None =>
      match s with
      | EmptyString => None
      | String _ s' => findMarked s'
      end
  end.

(** the second pattern, anchored at both ends *)
Definition wholeId (s : string) : option string :=
  if (String.length s =? 11)%nat && allIdChars s then Some s else None.

Definition ExtractVideoID (url : string) : rt.result string :=
  match findMarked url with
  | Some id => rt.Ok id
  | None =>
      match wholeId url with
      | Some id => rt.Ok id
      | None => rt.Err "could not extract video ID from URL"
      end
  end.

(** The loop of [GetVideoInfo] over the formats: the width and height of
    the first format of greatest width, (0, 0) when no width is positive. *)
Fixpoint sourceResolution (formats : youtube.FormatList)
         (sourceWidth sourceHeight : Z) : Z * Z :=
  match formats with
  | [] => (sourceWidth, sourceHeight)
  | f :: rest =>
      if sourceWidth <? youtube.Width f
      then sourceResolution rest (youtube.Width f) (youtube.Height f)
      else sourceResolution rest sourceWidth sourceHeight
  end.

(** the thumbnail of [GetVideoInfo]: the last one listed *)
Definition bestThumbnail (thumbnails : list string) : string :=
  match last thumbnails with
  | Some url => url
  | None => ""
  end.

End videoid.

(** ** Package [video]: the preview server *)

Module videoserver.

Record Server := mkServer {
  allowedDir     : string;
  currentVideo   : string;
  currentVideoID : string
}.

Definition NewServer : Server := mkServer "" "" "".

Definition SetAllowedDir (s : Server) (dir : string) : Server :=
  mkServer dir (currentVideo s) (currentVideoID s).

Definition SetCurrentVideo (s : Server) (path videoID : string) : Server :=
  mkServer (allowedDir s) path videoID.

Definition ClearVideo (s : Server) : Server :=
  mkServer (allowedDir s) "" "".

Definition GetCurrentVideoURL (s : Server) : string :=
  if String.eqb (currentVideoID s) "" then ""
  else "/video/" ++ currentVideoID s.

(** what [os.Stat] answers *)
Inductive Stat := NotExist | StatError | Directory | Regular.

(** how [ServeHTTP] answers *)
Inductive Response :=
| NotFound
| BadRequest
| InternalServerError
| Forbidden
| Content (path : string).   (* http.ServeContent of the opened file *)

(** the identifier that a request path names *)
Definition requestedID (urlPath : string) : string :=
  match strings.SplitByte (strings.TrimPrefix urlPath "/video/") "/" with
  | first :: _ => first
  | [] => ""
  end.

Section Serve.

(** [filepath.Abs], [os.Stat] and [os.Open] *)
Variable Abs : string -> option string.
Variable stat : string -> Stat.
Variable openOk : string -> bool.

Definition ServeHTTP (s : Server) (urlPath : string) : Response :=
  if negb (strings.HasPrefix urlPath "/video/") then NotFound
  else
    let requested := requestedID urlPath in
    let videoPath := currentVideo s in
    let videoID := currentVideoID s in
    if negb (String.eqb requested videoID) || String.eqb videoPath ""
    then NotFound
    else
      let checked :=
        if negb (String.eqb (allowedDir s) "") then
          match Abs videoPath with
          | None => Some BadRequest
          | Some absPath =>
              match Abs (allowedDir s) with
              | None => Some InternalServerError
              | Some absAllowed =>
                  if negb (strings.HasPrefix absPath absAllowed)
                  then Some Forbidden else None
              end
          end
        else None in
      match checked with
      | Some refusal => refusal
      | None =>
          match stat videoPath with
          | NotExist => NotFound
          | StatError => InternalServerError
          | Directory => BadRequest
          | Regular =>
              if openOk videoPath then Content videoPath
              else InternalServerError
          end
      end.

End Serve.

End videoserver.

(** ** Package [ffmpeg]: the installer *)

Module installer.

Inductive GOOS := darwin | windows | linux | other.

(** How reading the zip archive ends ([extractMacZip],
    [extractWindowsZip]). *)
Inductive Unzip :=
| OpenFails     (* zip.OpenReader returns an error *)
| NotFound      (* no entry of the archive is the binary *)
| EntryFails    (* the entry cannot be opened *)
| CreateFails   (* the binary cannot be created in the cache *)
| CopyFails     (* the binary is created, the copy into it fails *)
| Copied.

(** What the host does during one installation.  The status text that
    accompanies each progress value is not modelled. *)
Record Host := mkHost {
  goos     : GOOS;
  lookPath : option string;  (* exec.LookPath of ffmpeg *)
  cacheDir : string;
  download : youtube.Fetch;  (* [streamOk]: the request is answered with
                                status 200 *)
  unzip    : Unzip;
  tarOk    : bool;           (* tar exits with status 0 *)
  tarWrote : bool            (* tar has written the binary to the cache *)
}.

Definition binaryName (os : GOOS) : string :=
  match os with
  | windows => "ffmpeg.exe"
  | _ => "ffmpeg"
  end.

Definition cachedPath (h : Host) : string :=
  youtube.Join (cacheDir h) (binaryName (goos h)).

Definition archivePath (h : Host) : string :=
  youtube.Join (cacheDir h) "ffmpeg-download".

Definition GetFFmpegPath (h : Host) : rt.M string :=
  match lookPath h with
  | Some path => rt.ret path
  | None =>
      let* there := rt.exists_ (cachedPath h) in
      rt.ret (if there then cachedPath h else "")
  end.

Definition IsInstalled (h : Host) : rt.M bool :=
  let* path := GetFFmpegPath h in rt.ret (youtube.nonEmpty path).

(** [io.Copy] through the installer's [progressReader]: every [Read]
    reports the fraction read, scaled to 0..0.9. *)
Fixpoint copyThrough (total read : Z) (reads : list Z) : rt.M unit :=
  match reads with
  | [] => rt.ret tt
  | n :: rest =>
      let read' := youtube.wrap64 (read + n) in
      let progress := (inject_Z read' / inject_Z total * (9 # 10))%Q in
      run (rt.emit [progress]) then copyThrough total read' rest
  end.

Definition downloadFile (h : Host) (destPath : string) (cbSet : bool)
  : rt.M (rt.result unit) :=
  let w := download h in
  if negb (youtube.streamOk w) then rt.ret (rt.Err "download failed")
  else if negb (youtube.createOk w) then rt.ret (rt.Err "create failed")
  else
    run (rt.create destPath) then
    run (if cbSet && (0 <? youtube.contentLength w)
         then copyThrough (youtube.contentLength w) 0 (youtube.reads w)
         else rt.ret tt) then
    rt.ret (if youtube.copyOk w then rt.Ok tt else rt.Err "copy failed").

Definition extractZip (h : Host) : rt.M bool :=
  match unzip h with
  | Copied => run (rt.create (cachedPath h)) then rt.ret true
  | CopyFails => run (rt.create (cachedPath h)) then rt.ret false
  | _ => rt.ret false
  end.

(** [tar] is run with a pattern that matches the binary only: it is taken
    to write no other file. *)
Definition extractLinuxTarXz (h : Host) : rt.M bool :=
  run rt.launch then
  run (rt.when (tarWrote h) (rt.create (cachedPath h))) then
  rt.ret (tarOk h).

Definition extract (h : Host) : rt.M bool :=
  match goos h with
  | linux => extractLinuxTarXz h
  | _ => extractZip h
  end.

Definition Install (h : Host) (cbSet : bool) : rt.M (rt.result unit) :=
  let* installed := IsInstalled h in
  if installed then
    run (rt.when cbSet (rt.emit [1%Q])) then rt.ret (rt.Ok tt)
  else
    match goos h with
    | other => rt.ret (rt.Err "unsupported operating system")
    | _ =>
        run (rt.when cbSet (rt.emit [0%Q])) then
        let* r := downloadFile h (archivePath h) cbSet in
        if rt.isErr r then rt.ret (rt.Err "failed to download FFmpeg")
        else
          run (rt.when cbSet (rt.emit [(9 # 10)%Q])) then
          let* ok := extract h in
          if negb ok then
            run (rt.remove (archivePath h)) then
            rt.ret (rt.Err "failed to extract FFmpeg")
          else
            run (rt.when cbSet (rt.emit [1%Q])) then
            run (rt.remove (archivePath h)) then
            rt.ret (rt.Ok tt)
    end.

(** the values that the copy reports *)
Fixpoint copyReports (total read : Z) (reads : list Z) : list Q :=
  match reads with
  | [] => []
  | n :: rest =>
      let read' := youtube.wrap64 (read + n) in
      (inject_Z read' / inject_Z total * (9 # 10))%Q
      :: copyReports total read' rest
  end.

End installer.

(** ** What an installation does, in closed form *)

Module installing.
Import youtube installer.

(** what the download of the archive reports *)
Definition archiveReports (h : Host) (cbSet : bool) : list Q :=
  if streamOk (download h) && createOk (download h) && cbSet
     && (0 <? contentLength (download h))
  then copyReports (contentLength (download h)) 0 (reads (download h))
  else [].

(** whether the extraction creates the binary, and what it returns *)
Definition writesBinary (h : Host) : bool :=
  match goos h with
  | linux => tarWrote h
  | _ => match unzip h with Copied | CopyFails => true | _ => false end
  end.

Definition extracts (h : Host) : bool :=
  match goos h with
  | linux => tarOk h
  | _ => match unzip h with Copied => true | _ => false end
  end.

(** the installation touches the file at [p] *)
Definition ownPath (h : Host) (p : string) : bool :=
  String.eqb p (cachedPath h) || String.eqb p (archivePath h).

End installing.

(** ** Package [main]: [App.LoadVideo] *)

Module app.
Import youtube videoserver.

(** What [LoadVideo] reads of the application and of the world.  The
    title, author, duration and thumbnail, which [LoadVideo] copies from
    the metadata into its answer, are left out. *)
Record Loader := mkLoader {
  previewBaseURL  : string;
  previewErr      : option string;
  client          : string -> option string;
                    (* GetVideoContext: the ID field of the metadata found
                       for an identifier, [None] on error *)
  ffmpegInstaller : option installer.Host;
  tempDir         : string;
  world           : World    (* what the download job meets *)
}.

Record VideoInfo := mkVideoInfo {
  ID       : string;
  VideoURL : string
}.

(** the identifier that [Downloader.GetVideoInfo] answers with *)
Definition GetVideoInfo (a : Loader) (url : string) : rt.result string :=
  match videoid.ExtractVideoID url with
  | rt.Err msg => rt.Err msg
  | rt.Ok videoID =>
      match client a videoID with
      | None => rt.Err "failed to get video info"
      | Some id => rt.Ok id
      end
  end.

Definition ffmpegPathOf (a : Loader) : rt.M string :=
  match ffmpegInstaller a with
  | None => rt.ret ""
  | Some h =>
      let* installed := installer.IsInstalled h in
      if installed then installer.GetFFmpegPath h else rt.ret ""
  end.

(** [LoadVideo] with the video server it acts on passed in and out; the
    values of the download:progress events go to the sink. *)
Definition LoadVideo (a : Loader) (url : string) (srv : Server)
  : rt.M (rt.result VideoInfo * Server) :=
  if String.eqb (previewBaseURL a) "" then
    match previewErr a with
    | Some e =>
        rt.ret (rt.Err ("preview server failed to start: " ++ e)%string, srv)
    | None => rt.ret (rt.Err "preview server not available", srv)
    end
  else
    match GetVideoInfo a url with
    | rt.Err msg =>
        rt.ret (rt.Err ("failed to get video info: " ++ msg)%string, srv)
    | rt.Ok id =>
        let srv := ClearVideo srv in
        let* ffmpegPath := ffmpegPathOf a in
        let* r := DownloadForPreview (world a) (tempDir a) ffmpegPath
                    (Some sink) in
        match r with
        | rt.Err msg =>
            rt.ret (rt.Err ("failed to download video: " ++ msg)%string, srv)
        | rt.Ok videoPath =>
            let srv := SetCurrentVideo srv videoPath id in
            rt.ret (rt.Ok (mkVideoInfo id (previewBaseURL a
                                           ++ GetCurrentVideoURL srv)%string),
                    srv)
        end
    end.

(** the load gets as far as the download *)
Definition reachesDownload (a : Loader) (url : string) : bool :=
  nonEmpty (previewBaseURL a) && negb (rt.isErr (GetVideoInfo a url)).

End app.

(** ** Counting progress reports *)

Module volume.

(** the reports that are below 1 *)
Definition below1 (trace : list Q) : list Q :=
  List.filter (fun p => youtube.Qltb p 1) trace.

End volume.

(** ** Sample hosts *)

Module hosts.

(** a file system in which every path is a regular file that opens *)
Definition everyFile (path : string) : videoserver.Stat := videoserver.Regular.
Definition opens (path : string) : bool := true.

(** [filepath.Abs] of a path that is absolute and clean *)
Definition absOfClean (path : string) : option string := Some path.

Definition serving : videoserver.Server :=
  videoserver.mkServer "/tmp/yt" "/tmp/yt/My Video-preview.mp4" "dQw4w9WgXcQ".

(** a Linux host without ffmpeg whose download and extraction succeed *)
Definition freshLinux : installer.Host :=
  installer.mkHost installer.linux None "/home/u/.cache/yt-clipper/bin"
                   fetching.wholeStream installer.Copied true true.

(** a macOS host whose download is cut *)
Definition cutMac : installer.Host :=
  installer.mkHost installer.darwin None "/Users/u/.cache/yt-clipper/bin"
                   fetching.cutStream installer.Copied true true.

(** the metadata service knows every identifier under its own name *)
Definition knowsAll (videoID : string) : option string := Some videoID.


(** an application without encoder whose only stream is cut *)
Definition unlucky : app.Loader :=
  app.mkLoader "http://127.0.0.1:41001" None knowsAll None "/tmp/yt"
    (youtube.mkWorld (Some ("My Video", [samples.av720])) false false false
       fetching.cutStream fetching.cutStream false false
       fetching.cutStream false).

(** the cache already holds the encoder *)
Definition withEncoder : rt.Sys :=
  rt.mkSys {[ "/home/u/.cache/yt-clipper/bin/ffmpeg" ]} [] 0.

End hosts.

(** * Theorems *)

(** ** FormatCatalog: the ranking loops *)

Section Ranking.
Import youtube catalog.

Variable better : Format -> Format -> bool.
Hypothesis better_irrefl : forall x, better x x = false.
Hypothesis better_chain :
  forall g b f, better g b = false -> better f b = true -> better g f = false.

Lemma pickLoop_In best rest : In (pickLoop better best rest) (best :: rest).
Proof.
  revert best. induction rest as [|f rest IH]; intros best; simpl.
  - by left.
  - destruct (IH (if better f best then f else best)) as [H|H].
    + destruct (better f best); rewrite <- H; auto.
    + auto.
Qed.

Lemma pickLoop_unbeaten rest : forall best seen,
  (forall g, In g seen -> better g best = false) ->
  forall g, In g (seen ++ rest) ->
            better g (pickLoop better best rest) = false.
Proof.
  induction rest as [|f rest IH]; intros best seen Hseen g Hg; simpl.
  - rewrite app_nil_r in Hg. auto.
  - apply (IH _ (seen ++ [f])).
    + intros h Hh. apply in_app_or in Hh as [Hh|[<-|[]]].
      * destruct (better f best) eqn:E; eauto.
      * destruct (better f best) eqn:E; auto.
    + by rewrite <- app_assoc.
Qed.

Lemma pickBy_None formats : pickBy better formats = None <-> formats = [].
Proof. destruct formats; simpl; split; congruence. Qed.

Lemma pickBy_best formats r :
  pickBy better formats = Some r ->
  In r formats /\ forall g, In g formats -> better g r = false.
Proof.
  destruct formats as [|f0 rest]; simpl; [congruence|].
  intros [= <-]. split; [apply pickLoop_In|].
  intros g Hg. apply (pickLoop_unbeaten rest f0 [f0]); auto.
  intros h [<-|[]]. apply better_irrefl.
Qed.

End Ranking.

Section Orders.
Import youtube catalog.

Ltac order_cases :=
  repeat match goal with
         | |- context [Z.eqb ?a ?b] => destruct (Z.eqb_spec a b)
         | |- context [Z.ltb ?a ?b] => destruct (Z.ltb_spec a b)
         | H : context [Z.eqb ?a ?b] |- _ => destruct (Z.eqb_spec a b)
         | H : context [Z.ltb ?a ?b] |- _ => destruct (Z.ltb_spec a b)
         end;
  simpl in *; try congruence; try lia.

Lemma betterWithAudio_prefers f g :
  betterWithAudio f g = true <-> prefers720 f g.
Proof.
  unfold betterWithAudio, prefers720. split.
  - intros H. order_cases.
  - intros H. order_cases.
Qed.

Lemma betterVideoOnly_prefers f g :
  betterVideoOnly f g = true <-> prefersTaller f g.
Proof.
  unfold betterVideoOnly, prefersTaller. split; intros H; order_cases.
Qed.

Lemma betterAudioOnly_prefers f g :
  betterAudioOnly f g = true <-> prefersBitrate f g.
Proof.
  unfold betterAudioOnly, prefersBitrate. split; intros H; order_cases.
Qed.

Lemma betterWithAudio_irrefl x : betterWithAudio x x = false.
Proof. unfold betterWithAudio. order_cases. Qed.

Lemma betterWithAudio_chain g b f :
  betterWithAudio g b = false -> betterWithAudio f b = true ->
  betterWithAudio g f = false.
Proof. unfold betterWithAudio. intros H1 H2. order_cases. Qed.

Lemma betterVideoOnly_irrefl x : betterVideoOnly x x = false.
Proof. unfold betterVideoOnly. order_cases. Qed.

Lemma betterVideoOnly_chain g b f :
  betterVideoOnly g b = false -> betterVideoOnly f b = true ->
  betterVideoOnly g f = false.
Proof. unfold betterVideoOnly. intros H1 H2. order_cases. Qed.

Lemma betterAudioOnly_irrefl x : betterAudioOnly x x = false.
Proof. unfold betterAudioOnly. order_cases. Qed.

Lemma betterAudioOnly_chain g b f :
  betterAudioOnly g b = false -> betterAudioOnly f b = true ->
  betterAudioOnly g f = false.
Proof. unfold betterAudioOnly. intros H1 H2. order_cases. Qed.

End Orders.

(** ** FormatCatalog: progressive selection *)

Section Progressive.
Import youtube catalog samples.

Lemma classify_filter formats : forall a b c,
  classify formats a b c =
  (a ++ List.filter tier1 formats, b ++ List.filter tier2 formats,
   c ++ List.filter tier3 formats).
Proof.
  induction formats as [|f rest IH]; intros a b c.
  - simpl. by rewrite !app_nil_r.
  - cbn [classify List.filter]. unfold tier1, tier2, tier3, bothTracks.
    destruct (0 <? AudioChannels f); simpl;
      [destruct (strings.Contains (MimeType f) "video"); simpl|];
      [destruct (strings.Contains (MimeType f) "video/mp4"); simpl| |];
      [destruct (strings.Contains (MimeType f) "avc1"); simpl| | |];
      [destruct (strings.Contains (MimeType f) "mp4a"); simpl| | | |];
      rewrite IH; by rewrite <- ?app_assoc.
Qed.

Lemma firstVideo_head formats :
  firstVideo formats = head (List.filter tier4 formats).
Proof.
  induction formats as [|f rest IH]; simpl; [done|].
  unfold tier4 at 1. by destruct (strings.Contains (MimeType f) "video").
Qed.

Lemma pickBestWithAudio_chosen f0 rest :
  let cands := f0 :: rest in
  chosen prefers720 cands (pickBestWithAudio cands)
  /\ ((exists g, In g cands /\ Height g = 720) ->
      exists r, pickBestWithAudio cands = Some r /\ Height r = 720).
Proof.
  intros cands.
  destruct (pickBestWithAudio cands) as [r|] eqn:E; [|discriminate E].
  destruct (pickBy_best betterWithAudio betterWithAudio_irrefl
              betterWithAudio_chain cands r E) as [Hin Hbest].
  assert (Hno : forall g, In g cands -> ~ prefers720 g r).
  { intros g Hg Hp. apply betterWithAudio_prefers in Hp.
    rewrite (Hbest g Hg) in Hp. discriminate. }
  split.
  - exists r. auto.
  - intros (g & Hg & H720). exists r. split; [done|].
    destruct (Z.eq_dec (Height r) 720) as [|Hne]; [done|].
    exfalso. apply (Hno g Hg). left. auto.
Qed.

(** C1 (as amended).  For every list of variants, [selectFormat] returns
    a variant of the first non-empty tier among (1) MP4 with avc1 and mp4a
    and both tracks, (2) MP4 with both tracks, (3) any container with both
    tracks; within that tier no candidate is strictly preferred to the one
    returned (720 first, then greater height, then greater bitrate), so a
    tier that holds a 720 variant yields a 720 variant.  When those three
    tiers are empty the result is the first video-tagged variant in list
    order, or nothing; no ranking is applied there. *)
Theorem selectFormat_ranks_tiers_with_audio (formats : FormatList) :
  progressiveAsBuilt formats (selectFormat formats).
Proof.
  unfold progressiveAsBuilt, selectFormat.
  rewrite classify_filter. cbn [app firstNonEmpty].
  destruct (List.filter tier1 formats) as [|a1 t1].
  - destruct (List.filter tier2 formats) as [|a2 t2].
    + destruct (List.filter tier3 formats) as [|a3 t3].
      * simpl. apply firstVideo_head.
      * cbn [pickBestWithAudio pickBy].
        apply (pickBestWithAudio_chosen a3 t3).
    + cbn [pickBestWithAudio pickBy].
      apply (pickBestWithAudio_chosen a2 t2).
  - cbn [pickBestWithAudio pickBy].
    apply (pickBestWithAudio_chosen a1 t1).
Qed.

(** C1 (as stated) fails in the fourth tier: of two video-only variants
    at 480 and 720, the 480 one, listed first, is returned. *)
Lemma selectFormat_last_resort_is_first_listed :
  selectFormat [videoOnly480; videoOnly720] = Some videoOnly480
  /\ ~ progressiveAsStated [videoOnly480; videoOnly720]
         (selectFormat [videoOnly480; videoOnly720]).
Proof.
  split; [reflexivity|].
  unfold progressiveAsStated. cbn.
  intros (r & Hr & _ & Hbest). injection Hr as <-.
  apply (Hbest videoOnly720); [right; by left|].
  left. split; [reflexivity|discriminate].
Qed.

Example selectFormat_480_720_1080 :
  selectFormat [av480; av720; av1080] = Some av720
  /\ selectFormat [av1080; av720; av480] = Some av720
  /\ selectFormat [av720; av1080] = Some av720.
Proof. repeat split; reflexivity. Qed.

End Progressive.

(** ** FormatCatalog: split-pair selection *)

Section SplitPair.
Import youtube catalog samples.

Lemma HasPrefix_app s a b :
  strings.HasPrefix s (a ++ b) = true -> strings.HasPrefix s a = true.
Proof.
  revert s. induction a as [|c a IH]; intros s; [done|].
  destruct s as [|d s]; simpl; [done|].
  intros H. apply andb_prop in H as [-> H]. simpl. by apply IH.
Qed.

Lemma Contains_app s a b :
  strings.Contains s (a ++ b) = true -> strings.Contains s a = true.
Proof.
  induction s as [|d s IH]; cbn [strings.Contains]; intros H;
    apply orb_prop in H as [H|H].
  - by rewrite (HasPrefix_app _ _ _ H).
  - discriminate.
  - by rewrite (HasPrefix_app _ _ _ H).
  - rewrite (IH H). apply orb_true_r.
Qed.

Lemma isVideoOnlyCandidate_spec f :
  isVideoOnlyCandidate f = videoOnlyInMp4OrWebm f.
Proof.
  unfold isVideoOnlyCandidate, videoOnlyInMp4OrWebm.
  destruct (AudioChannels f =? 0); simpl; [|done].
  destruct (strings.Contains (MimeType f) "video/mp4") eqn:E1.
  - by rewrite (Contains_app _ "video" "/mp4" E1).
  - destruct (strings.Contains (MimeType f) "video/webm") eqn:E2.
    + by rewrite (Contains_app _ "video" "/webm" E2).
    + by destruct (strings.Contains (MimeType f) "video").
Qed.

Lemma isAudioOnlyCandidate_spec f :
  isAudioOnlyCandidate f = audioOnlyInMp4OrWebm f.
Proof.
  unfold isAudioOnlyCandidate, audioOnlyInMp4OrWebm.
  rewrite Z.leb_antisym.
  destruct (0 <? AudioChannels f); simpl; [|done].
  destruct (strings.Contains (MimeType f) "audio/mp4") eqn:E1.
  - by rewrite (Contains_app _ "audio" "/mp4" E1).
  - destruct (strings.Contains (MimeType f) "audio/webm") eqn:E2.
    + by rewrite (Contains_app _ "audio" "/webm" E2).
    + by destruct (strings.Contains (MimeType f) "audio").
Qed.

Lemma pickBy_side better prefers cands :
  (forall x, better x x = false) ->
  (forall g b f, better g b = false -> better f b = true ->
                 better g f = false) ->
  (forall f g, better f g = true <-> prefers f g) ->
  side prefers cands (pickBy better cands).
Proof.
  intros Hirr Hchain Hpref. destruct cands as [|f0 rest]; [done|].
  unfold side.
  destruct (pickBy better (f0 :: rest)) as [r|] eqn:E; [|discriminate E].
  destruct (pickBy_best better Hirr Hchain _ r E) as [Hin Hbest].
  exists r. repeat split; [done|].
  intros g Hg Hp. apply Hpref in Hp. rewrite (Hbest g Hg) in Hp.
  discriminate.
Qed.

(** C3.  For every list of variants, the video side of
    [selectMuxFormats] is taken among the variants without audio in an MP4
    or WebM video container and the audio side among the variants with
    audio in an MP4 or WebM audio container; a side without candidate is
    empty; the video chosen has no candidate of strictly greater height,
    nor of equal height and strictly greater bitrate; the audio chosen has
    no candidate of strictly greater bitrate.  Height 720 plays no part:
    of video-only variants at 480, 720 and 1080 the 1080 one is chosen. *)
Theorem selectMuxFormats_takes_tallest_and_loudest (formats : FormatList) :
  side prefersTaller (List.filter videoOnlyInMp4OrWebm formats)
       (fst (selectMuxFormats formats))
  /\ side prefersBitrate (List.filter audioOnlyInMp4OrWebm formats)
          (snd (selectMuxFormats formats))
  /\ fst (selectMuxFormats [videoOnly480; videoOnly720; videoOnly1080])
     = Some videoOnly1080
  /\ fst (selectMuxFormats [videoOnly1080; videoOnly720; videoOnly480])
     = Some videoOnly1080.
Proof.
  unfold selectMuxFormats. cbn [fst snd].
  rewrite (filter_ext _ _ isVideoOnlyCandidate_spec).
  rewrite (filter_ext _ _ isAudioOnlyCandidate_spec).
  split; [|split; [|split; reflexivity]].
  - exact (pickBy_side _ _ _ betterVideoOnly_irrefl betterVideoOnly_chain
                          betterVideoOnly_prefers).
  - exact (pickBy_side _ _ _ betterAudioOnly_irrefl betterAudioOnly_chain
                          betterAudioOnly_prefers).
Qed.

End SplitPair.

(** ** Split-mux: which tracks are copied *)

Section MuxCodecs.
Import youtube muxing samples.

(** C4 (as amended).  The mux step re-encodes the video track exactly
    when the MIME type of the video format mentions vp9, vp09, av01 or
    webm, and copies it otherwise; it re-encodes the audio track exactly
    when the MIME type of the audio format mentions opus or webm, and
    copies it otherwise.  The flags chosen stand between the stream maps
    and the output flags of the encoder's command line. *)
Theorem mux_reencodes_listed_codecs_only
        (videoFmt audioFmt : Format) (videoPath audioPath outPath : string) :
  (videoCodecArgs videoFmt = encodeVideo
   <-> mentions videoFmt reencodedVideoTags = true)
  /\ (videoCodecArgs videoFmt = copyVideo
      <-> mentions videoFmt reencodedVideoTags = false)
  /\ (audioCodecArgs audioFmt = encodeAudio
      <-> mentions audioFmt reencodedAudioTags = true)
  /\ (audioCodecArgs audioFmt = copyAudio
      <-> mentions audioFmt reencodedAudioTags = false)
  /\ muxArgs videoFmt audioFmt videoPath audioPath outPath
     = ["-y"; "-hide_banner"; "-loglevel"; "error";
        "-i"; videoPath; "-i"; audioPath;
        "-map"; "0:v:0"; "-map"; "1:a:0"]
       ++ videoCodecArgs videoFmt ++ audioCodecArgs audioFmt
       ++ ["-movflags"; "+faststart"; "-shortest"; outPath].
Proof.
  assert (Hv : mentions videoFmt reencodedVideoTags
               = needsVideoTranscode videoFmt).
  { unfold mentions, needsVideoTranscode. simpl.
    by rewrite orb_false_r, !orb_assoc. }
  assert (Ha : mentions audioFmt reencodedAudioTags
               = needsAudioTranscode audioFmt).
  { unfold mentions, needsAudioTranscode. simpl. by rewrite orb_false_r. }
  rewrite Hv, Ha. unfold videoCodecArgs, audioCodecArgs.
  unfold encodeVideo, copyVideo, encodeAudio, copyAudio.
  repeat apply conj; try reflexivity;
    destruct (needsVideoTranscode videoFmt),
             (needsAudioTranscode audioFmt); intros; congruence.
Qed.

(** C4 (as stated) fails: an HEVC video stream in MP4 and an E-AC-3 audio
    stream in MP4 are the pair that [selectMuxFormats] picks here, and both
    are copied although neither is H.264 nor AAC. *)
Lemma mux_copies_hevc_and_eac3 :
  selectMuxFormats [videoOnly720; hevc1080; aac128; eac3]
  = (Some hevc1080, Some eac3)
  /\ videoCodecArgs hevc1080 = copyVideo
  /\ audioCodecArgs eac3 = copyAudio
  /\ ~ copiesAsStated hevc1080 eac3.
Proof.
  repeat split; try reflexivity.
  intros [Hv _]. destruct Hv as [Hv _].
  specialize (Hv eq_refl). discriminate Hv.
Qed.

End MuxCodecs.

(** ** Files left behind by a fetch and by the split-mux strategy *)

Section Cleanup.
Import youtube fetching samples.

Lemma Read_frame pr n s :
  rt.files (snd (Read pr n s)) = rt.files s
  /\ rt.launched (snd (Read pr n s)) = rt.launched s.
Proof.
  unfold Read. destruct (progressCb pr); [|done].
  destruct (0 <? total pr); [|done].
  by destruct (_ || _).
Qed.

Lemma copyThrough_frame reads : forall pr s,
  rt.files (snd (copyThrough pr reads s)) = rt.files s
  /\ rt.launched (snd (copyThrough pr reads s)) = rt.launched s.
Proof.
  induction reads as [|n rest IH]; intros pr s; [done|].
  cbn [copyThrough]. unfold rt.bind.
  destruct (Read pr n s) as [pr' s'] eqn:E.
  destruct (Read_frame pr n s) as [Hf Hl]. rewrite E in Hf, Hl.
  destruct (IH pr' s') as [Hf' Hl']. simpl in *. split; congruence.
Qed.

Lemma copyStream_frame w cb s :
  fst (copyStream w cb s) = copyOk w
  /\ rt.files (snd (copyStream w cb s)) = rt.files s
  /\ rt.launched (snd (copyStream w cb s)) = rt.launched s.
Proof.
  unfold copyStream. destruct cb as [k|]; [|done].
  destruct (0 <? contentLength w); [|done].
  unfold rt.bind.
  destruct (copyThrough _ (reads w) s) as [pr' s'] eqn:E.
  destruct (copyThrough_frame (reads w)
              (mkReader (contentLength w) 0 (Some k) 0%Q 0) s) as [Hf Hl].
  rewrite E in Hf, Hl. done.
Qed.

Lemma downloadToFile_frame w dest cb s :
  rt.isErr (fst (downloadToFile w dest cb s)) = fetchFails w
  /\ rt.files (snd (downloadToFile w dest cb s))
     = (if streamOk w && createOk w then {[dest]} ∪ rt.files s
        else rt.files s)
  /\ rt.launched (snd (downloadToFile w dest cb s)) = rt.launched s.
Proof.
  unfold downloadToFile, fetchFails.
  destruct (streamOk w); [|done]. destruct (createOk w); [|done].
  cbn [negb andb orb]. unfold rt.bind, rt.create. cbn [fst snd].
  match goal with |- context [copyStream w cb ?s0] =>
    destruct (copyStream_frame w cb s0) as (Hr & Hf & Hl);
    destruct (copyStream w cb s0) as [ok s'] end.
  cbn [fst snd] in *. subst ok. by destruct (copyOk w).
Qed.

Ltac step_fetch :=
  match goal with
  | |- context [downloadToFile ?w ?d ?c ?s0] =>
      let Hr := fresh "Hr" in
      let Hf := fresh "Hf" in
      let Hl := fresh "Hl" in
      let r := fresh "r" in
      let s' := fresh "s" in
      destruct (downloadToFile_frame w d c s0) as (Hr & Hf & Hl);
      destruct (downloadToFile w d c s0) as [r s'];
      cbn [fst snd] in Hr, Hf, Hl
  end.

Lemma downloadAndMux_outcome w title v a destDir ffmpegPath cb s :
  let o := downloadAndMux w title v a destDir ffmpegPath cb s in
  rt.isErr (fst o)
  = fetchFails (videoFetch w) || fetchFails (audioFetch w)
    || negb (muxExitOk w)
  /\ (rt.isErr (fst o) = true ->
      (rt.files (snd o) ⊆ rt.files s)
      /\ (muxVideoPath title v destDir ∉ rt.files (snd o))
      /\ (fetchFails (videoFetch w) = false ->
          muxAudioPath title a destDir ∉ rt.files (snd o))
      /\ (fetchFails (videoFetch w) = false ->
          fetchFails (audioFetch w) = false ->
          previewPath title destDir ∉ rt.files (snd o))).
Proof.
  cbv zeta. unfold downloadAndMux, rt.bind.
  step_fetch. rewrite <- Hr.
  destruct (rt.isErr r) eqn:Er.
  - cbn. split; [done|]. intros _. rewrite Hf.
    destruct (streamOk (videoFetch w) && createOk (videoFetch w));
      repeat split; try done; set_solver.
  - step_fetch. rewrite <- Hr0.
    destruct (rt.isErr r0) eqn:Er0.
    + cbn. split; [done|]. intros _. rewrite Hf0, Hf.
      destruct (streamOk (videoFetch w) && createOk (videoFetch w)),
        (streamOk (audioFetch w) && createOk (audioFetch w));
        repeat split; try done; set_solver.
    + unfold rt.launch, rt.when.
      destruct cb, (muxWrites w), (muxExitOk w); cbn;
        (split; [done|]); try discriminate; intros _; rewrite Hf0, Hf;
        destruct (streamOk (videoFetch w) && createOk (videoFetch w)),
          (streamOk (audioFetch w) && createOk (audioFetch w));
        repeat split; try done; set_solver.
Qed.

Lemma progressive_outcome w title formats format destDir ffmpegPath cb s :
  selectFormat formats = Some format ->
  fetchFails (progFetch w) = true ->
  let o := progressive w title formats destDir ffmpegPath cb s in
  rt.isErr (fst o) = true
  /\ (rt.files (snd o) ⊆ rt.files s)
  /\ rt.launched (snd o) = rt.launched s
  /\ (failsMidTransfer (progFetch w) = true ->
      progressivePath title format destDir ∉ rt.files (snd o)).
Proof.
  intros Hsel Hfail. cbv zeta. unfold progressive. rewrite Hsel.
  unfold fetchFails, failsMidTransfer in *.
  destruct (streamOk (progFetch w)); [|cbn; repeat split; done].
  destruct (createOk (progFetch w)); [|cbn; repeat split; done].
  cbn [negb andb orb] in *. unfold rt.bind, rt.create. cbn [fst snd].
  match goal with |- context [copyStream ?f cb ?s0] =>
    destruct (copyStream_frame f cb s0) as (Hr & Hf & Hl);
    destruct (copyStream f cb s0) as [ok s'] end.
  cbn [fst snd] in *. subst ok. rewrite Hfail. cbn.
  rewrite Hf, Hl. repeat split; try done.
  - set_solver.
  - intros _. unfold progressivePath. set_solver.
Qed.

(** C5 (as amended).  [downloadToFile] itself returns a mid-transfer error
    with the partial file still on disk; the file is removed by the code
    that called the fetch, before that code returns its own error.  In the
    split-mux strategy a failed video fetch leaves no video file and a
    failed audio fetch leaves neither file; in the progressive strategy a
    copy that fails leaves no destination file.  In each case no file that
    was absent before the fetch exists after it. *)
Theorem failed_fetch_is_removed_by_its_caller
        (w : World) (title : string) (formats : FormatList)
        (format v a : Format) (destDir ffmpegPath : string)
        (cb : ProgressCallback) (s : rt.Sys) :
  (failsMidTransfer (videoFetch w) = true ->
   let o := downloadToFile (videoFetch w) (muxVideoPath title v destDir)
              cb s in
   rt.isErr (fst o) = true
   /\ (muxVideoPath title v destDir ∈ rt.files (snd o)))
  /\ (fetchFails (videoFetch w) = true ->
      let o := downloadAndMux w title v a destDir ffmpegPath cb s in
      rt.isErr (fst o) = true
      /\ (rt.files (snd o) ⊆ rt.files s)
      /\ (muxVideoPath title v destDir ∉ rt.files (snd o)))
  /\ (fetchFails (videoFetch w) = false ->
      fetchFails (audioFetch w) = true ->
      let o := downloadAndMux w title v a destDir ffmpegPath cb s in
      rt.isErr (fst o) = true
      /\ (rt.files (snd o) ⊆ rt.files s)
      /\ (muxVideoPath title v destDir ∉ rt.files (snd o))
      /\ (muxAudioPath title a destDir ∉ rt.files (snd o)))
  /\ (selectFormat formats = Some format ->
      failsMidTransfer (progFetch w) = true ->
      let o := progressive w title formats destDir ffmpegPath cb s in
      rt.isErr (fst o) = true
      /\ (rt.files (snd o) ⊆ rt.files s)
      /\ (progressivePath title format destDir ∉ rt.files (snd o))).
Proof.
  repeat apply conj.
  - intros Hmid. cbv zeta.
    destruct (downloadToFile_frame (videoFetch w)
                (muxVideoPath title v destDir) cb s) as (Hr & Hf & _).
    rewrite Hr, Hf. unfold failsMidTransfer, fetchFails in *.
    destruct (streamOk (videoFetch w)), (createOk (videoFetch w)),
      (copyOk (videoFetch w)); try discriminate.
    split; [done|]. cbn. set_solver.
  - intros Hv. cbv zeta.
    destruct (downloadAndMux_outcome w title v a destDir ffmpegPath cb s)
      as [He Hc]. cbv zeta in He, Hc. rewrite Hv in He. cbn in He.
    destruct (Hc He) as (? & ? & _). done.
  - intros Hv Ha. cbv zeta.
    destruct (downloadAndMux_outcome w title v a destDir ffmpegPath cb s)
      as [He Hc]. cbv zeta in He, Hc. rewrite Hv, Ha in He. cbn in He.
    destruct (Hc He) as (? & ? & Hap & _). auto.
  - intros Hsel Hmid. cbv zeta.
    assert (Hfail : fetchFails (progFetch w) = true).
    { unfold failsMidTransfer, fetchFails in *.
      destruct (streamOk (progFetch w)), (createOk (progFetch w)),
        (copyOk (progFetch w)); done. }
    destruct (progressive_outcome w title formats format destDir ffmpegPath
                cb s Hsel Hfail) as (? & ? & _ & Hp).
    auto.
Qed.

(** C5, an instance: the audio stream of the job is cut after 40 bytes. *)
Lemma failed_fetch_is_removed_by_its_caller_witness :
  fetchFails (videoFetch audioCut) = false
  /\ fetchFails (audioFetch audioCut) = true
  /\ let o := downloadAndMux audioCut "My Video" videoOnly1080 opus160
               "/tmp/yt" "/usr/bin/ffmpeg" (Some sink) rt.start in
     rt.isErr (fst o) = true
     /\ (rt.files (snd o) ⊆ rt.files rt.start)
     /\ (muxVideoPath "My Video" videoOnly1080 "/tmp/yt" ∉ rt.files (snd o))
     /\ (muxAudioPath "My Video" opus160 "/tmp/yt" ∉ rt.files (snd o)).
Proof.
  split; [reflexivity|]. split; [reflexivity|].
  destruct (failed_fetch_is_removed_by_its_caller audioCut "My Video"
              [] videoOnly1080 videoOnly1080 opus160 "/tmp/yt"
              "/usr/bin/ffmpeg" (Some sink) rt.start) as (_ & _ & H & _).
  apply H; reflexivity.
Defined.

(** C5 (as stated) fails on the fetch operation itself: when the stream
    is cut after 40 of 100 bytes, [downloadToFile] returns its error and
    the destination file is still there. *)
Lemma downloadToFile_leaves_the_partial_file :
  ~ fetchCleansUpAsStated cutStream "/tmp/yt/My Video-video.webm"
      (Some sink) rt.start.
Proof.
  intros H. destruct (H eq_refl) as [_ Hgone]. apply Hgone.
  destruct (downloadToFile_frame cutStream "/tmp/yt/My Video-video.webm"
              (Some sink) rt.start) as (_ & Hf & _).
  rewrite Hf. cbn. set_solver.
Qed.

(** C6.  Whenever [downloadAndMux] returns an error (the video fetch, the
    audio fetch or the encoder failed, and only then), no file exists that
    did not exist before the call, the video file does not exist, the
    audio file does not exist once the audio fetch was started, and the
    output file does not exist once the encoder was started. *)
Theorem mux_failure_removes_every_temp_file
        (w : World) (title : string) (v a : Format)
        (destDir ffmpegPath : string) (cb : ProgressCallback) (s : rt.Sys) :
  let o := downloadAndMux w title v a destDir ffmpegPath cb s in
  rt.isErr (fst o) = true ->
  (fetchFails (videoFetch w) || fetchFails (audioFetch w)
   || negb (muxExitOk w) = true)
  /\ (rt.files (snd o) ⊆ rt.files s)
  /\ (muxVideoPath title v destDir ∉ rt.files (snd o))
  /\ (fetchFails (videoFetch w) = false ->
      muxAudioPath title a destDir ∉ rt.files (snd o))
  /\ (fetchFails (videoFetch w) = false ->
      fetchFails (audioFetch w) = false ->
      previewPath title destDir ∉ rt.files (snd o)).
Proof.
  intros o Herr. subst o.
  destruct (downloadAndMux_outcome w title v a destDir ffmpegPath cb s)
    as [He Hc]. cbv zeta in He, Hc.
  split; [by rewrite <- He|]. by apply Hc.
Qed.

(** C6, an instance: both streams arrive and the encoder fails after it
    has written part of its output. *)
Lemma mux_failure_removes_every_temp_file_witness :
  let o := downloadAndMux muxFailure "My Video" videoOnly1080 opus160
             "/tmp/yt" "/usr/bin/ffmpeg" (Some sink) rt.start in
  rt.isErr (fst o) = true
  /\ (rt.files (snd o) ⊆ rt.files rt.start)
  /\ (previewPath "My Video" "/tmp/yt" ∉ rt.files (snd o)).
Proof.
  cbv zeta.
  assert (E : rt.isErr (fst (downloadAndMux muxFailure "My Video"
                videoOnly1080 opus160 "/tmp/yt" "/usr/bin/ffmpeg"
                (Some sink) rt.start)) = true) by reflexivity.
  destruct (mux_failure_removes_every_temp_file muxFailure "My Video"
              videoOnly1080 opus160 "/tmp/yt" "/usr/bin/ffmpeg"
              (Some sink) rt.start E) as (_ & Hsub & _ & _ & Hout).
  split; [exact E|]. split; [exact Hsub|]. apply Hout; reflexivity.
Defined.

End Cleanup.

(** ** The progress reader *)

Section ProgressReader.
Import youtube fetching reporting samples.

Lemma wrap64_small z : - 2 ^ 63 <= z < 2 ^ 63 -> wrap64 z = z.
Proof. intros H. unfold wrap64. rewrite Z.mod_small; lia. Qed.

Lemma fraction_whole t : 0 < t -> (inject_Z t / inject_Z t == 1)%Q.
Proof.
  intros H. apply Qmult_inv_r. unfold Qeq. simpl. lia.
Qed.

Lemma fraction_le a b t :
  0 < t -> a <= b -> (inject_Z a / inject_Z t <= inject_Z b / inject_Z t)%Q.
Proof.
  intros Ht Hab. unfold Qdiv. apply Qmult_le_compat_r.
  - by rewrite <- Zle_Qle.
  - apply Qinv_le_0_compat. rewrite <- (Zle_Qle 0). lia.
Qed.

(** one [Read] with a callback installed and a known total *)
Lemma Read_known pr n s k :
  progressCb pr = Some k -> 0 < total pr ->
  let progress :=
    (inject_Z (wrap64 (read pr + n)) / inject_Z (total pr))%Q in
  let fires := Qle_bool (1 # 100) (progress - lastReported pr)
               || Qle_bool 1 progress in
  Read pr n s
  = (mkReader (total pr) (wrap64 (read pr + n)) (progressCb pr)
              (if fires then progress else lastReported pr)
              (reportedCount pr),
     rt.mkSys (rt.files s)
              (rt.emitted s ++ (if fires then k progress else []))
              (rt.launched s)).
Proof.
  intros Hcb Ht. cbv zeta. unfold Read. rewrite Hcb.
  destruct (Z.ltb_spec 0 (total pr)); [|lia].
  destruct (_ || _); cbn; [done|].
  rewrite app_nil_r. by destruct s.
Qed.

Lemma copyThrough_emits reads : forall pr s k,
  progressCb pr = Some k -> 0 < total pr ->
  rt.emitted (snd (copyThrough pr reads s))
  = rt.emitted s
    ++ concat (map k (reportedFractions (total pr) (read pr)
                                        (lastReported pr) reads)).
Proof.
  induction reads as [|n rest IH]; intros pr s k Hcb Ht.
  - cbn. by rewrite app_nil_r.
  - cbn [copyThrough reportedFractions]. unfold rt.bind.
    rewrite (Read_known pr n s k Hcb Ht). cbv beta iota zeta.
    destruct (_ || _); (erewrite IH; [|exact Hcb|exact Ht]); cbn.
    + by rewrite <- app_assoc.
    + by rewrite app_nil_r.
Qed.

Lemma reportedFractions_coalesced t reads : forall r last,
  coalesced last (reportedFractions t r last reads).
Proof.
  induction reads as [|n rest IH]; intros r last; [done|].
  cbn [reportedFractions].
  destruct (_ || _) eqn:E; [|apply IH].
  split; [|apply IH].
  apply orb_prop in E as [E|E]; apply Qle_bool_iff in E; auto.
Qed.

Lemma reportedFractions_bounds t reads : forall r last,
  0 < t -> 0 <= r -> Forall (fun n => 0 <= n) reads ->
  r + sumZ reads < 2 ^ 63 ->
  Forall (fun p => (inject_Z r / inject_Z t <= p
                    /\ p <= inject_Z (r + sumZ reads) / inject_Z t)%Q)
         (reportedFractions t r last reads)
  /\ nondecreasing (reportedFractions t r last reads).
Proof.
  induction reads as [|n rest IH]; intros r last Ht Hr Hn Hsum.
  - split; constructor.
  - pose proof (Forall_inv Hn) as Hn0. pose proof (Forall_inv_tail Hn) as Hrest.
  cbv beta in Hn0.
    cbn [sumZ fold_right] in Hsum.
    fold (sumZ rest) in Hsum.
    assert (Hrest0 : 0 <= sumZ rest).
    { clear -Hrest. induction Hrest; cbn; [lia|].
      fold (sumZ l). lia. }
    cbn [reportedFractions sumZ fold_right]. fold (sumZ rest).
    rewrite wrap64_small by lia.
    destruct (IH (r + n) last Ht ltac:(lia) Hrest ltac:(lia)) as [Hb Hs].
    destruct (IH (r + n) (inject_Z (r + n) / inject_Z t)%Q Ht ltac:(lia)
                Hrest ltac:(lia)) as [Hb' Hs'].
    assert (Hle : (inject_Z r / inject_Z t
                   <= inject_Z (r + n) / inject_Z t)%Q)
      by (apply fraction_le; lia).
    rewrite <- Z.add_assoc in Hb, Hb'.
    destruct (_ || _).
    + split.
      * constructor.
        -- split; [done|]. apply fraction_le; lia.
        -- eapply Forall_impl; [exact Hb'|]. cbn. intros p [H1 H2].
           split; [|done]. by apply Qle_trans with (2 := H1).
      * split; [|done]. eapply Forall_impl; [exact Hb'|].
        cbn. by intros p [H1 _].
    + split; [|done]. eapply Forall_impl; [exact Hb|]. cbn.
      intros p [H1 H2]. split; [|done]. by apply Qle_trans with (2 := H1).
Qed.


Lemma concat_map_sink (l : list Q) : concat (map sink l) = l.
Proof. induction l as [|p l IH]; cbn; [done|]. by rewrite IH. Qed.

Lemma copyStream_emits w cb s :
  rt.emitted (snd (copyStream w cb s)) = rt.emitted s ++ streamReports w cb.
Proof.
  unfold copyStream, streamReports.
  destruct cb as [k|]; [|cbn; by rewrite app_nil_r].
  destruct (Z.ltb_spec 0 (contentLength w)) as [Ht|];
    [|cbn; by rewrite app_nil_r].
  unfold rt.bind.
  pose proof (copyThrough_emits (reads w)
                (mkReader (contentLength w) 0 (Some k) 0%Q 0) s k
                eq_refl Ht) as He.
  by destruct (copyThrough _ (reads w) s) as [pr' s'].
Qed.

Lemma downloadToFile_emits w dest cb s :
  rt.emitted (snd (downloadToFile w dest cb s))
  = rt.emitted s
    ++ (if streamOk w && createOk w then streamReports w cb else []).
Proof.
  unfold downloadToFile.
  destruct (streamOk w); [|cbn; by rewrite app_nil_r].
  destruct (createOk w); [|cbn; by rewrite app_nil_r].
  cbn [negb andb]. unfold rt.bind, rt.create.
  match goal with |- context [copyStream w cb ?s0] =>
    pose proof (copyStream_emits w cb s0) as He;
    destruct (copyStream w cb s0) as [ok s'] end.
  exact He.
Qed.

Lemma segment_emits {A} (m : rt.M A) s tr :
  rt.emitted (snd (m s)) = rt.emitted s ++ tr -> segment m s = tr.
Proof. intros H. unfold segment. rewrite H. apply drop_app_length. Qed.



Example wholeStream_reports :
  segment (copyStream wholeStream (Some sink)) rt.start
  = [(40 # 100)%Q; (75 # 100)%Q; (100 # 100)%Q; (100 # 100)%Q].
Proof. reflexivity. Qed.

End ProgressReader.

(** ** The progress sequence of an acquisition job *)

Section JobProgress.
Import youtube fetching reporting samples.

Lemma tryYtdlp_emits w title destDir ffmpegPath cb s :
  rt.emitted (snd (tryYtdlp w title destDir ffmpegPath cb s))
  = rt.emitted s ++ ytdlpReports w ffmpegPath cb.
Proof.
  unfold tryYtdlp, ytdlpReports, downloadWithYtdlp.
  destruct (ytdlpOnPath w); cbn [andb negb];
    [|cbn; by rewrite app_nil_r].
  destruct (nonEmpty ffmpegPath); [|cbn; by rewrite app_nil_r].
  unfold rt.bind, rt.when, rt.exists_, rt.launch, call.
  destruct cb as [k|], (ytdlpWrites w), (ytdlpExitOk w); cbn;
    repeat match goal with |- context [bool_decide ?P] =>
             destruct (bool_decide P) end;
    cbn; by rewrite <- ?app_assoc, ?app_nil_r.
Qed.

Ltac run_fetch :=
  match goal with
  | |- context [downloadToFile ?w ?d ?c ?s0] =>
      let Hr := fresh "Hr" in
      let He := fresh "He" in
      let r := fresh "r" in
      let s' := fresh "s" in
      pose proof (proj1 (downloadToFile_frame w d c s0)) as Hr;
      pose proof (downloadToFile_emits w d c s0) as He;
      destruct (downloadToFile w d c s0) as [r s'];
      cbn [fst snd] in Hr, He
  end.

Lemma downloadAndMux_emits w title v a destDir ffmpegPath cb s :
  rt.emitted (snd (downloadAndMux w title v a destDir ffmpegPath cb s))
  = rt.emitted s ++ muxReports w cb.
Proof.
  unfold downloadAndMux, muxReports, fetchReports, rt.bind.
  run_fetch. rewrite <- Hr. destruct (rt.isErr r).
  - cbn. by rewrite He, app_nil_r.
  - run_fetch. rewrite <- Hr0. destruct (rt.isErr r0).
    + cbn. by rewrite He0, He, app_nil_r, <- app_assoc.
    + unfold rt.launch, rt.when, call.
      destruct cb as [k|], (muxWrites w), (muxExitOk w); cbn;
        rewrite He0, He; by rewrite <- ?app_assoc, ?app_nil_r.
Qed.

Lemma tryMux_emits w title formats destDir ffmpegPath cb s :
  rt.emitted (snd (tryMux w title formats destDir ffmpegPath cb s))
  = rt.emitted s ++ tryMuxReports w formats ffmpegPath cb.
Proof.
  unfold tryMux, tryMuxReports.
  destruct (nonEmpty ffmpegPath); [|cbn; by rewrite app_nil_r].
  destruct (selectMuxFormats formats) as [[v|] [a|]];
    try (cbn; by rewrite app_nil_r).
  unfold rt.bind.
  pose proof (downloadAndMux_emits w title v a destDir ffmpegPath cb s)
    as He.
  by destruct (downloadAndMux w title v a destDir ffmpegPath cb s).
Qed.

Lemma progressive_emits w title formats destDir ffmpegPath cb s :
  rt.emitted (snd (progressive w title formats destDir ffmpegPath cb s))
  = rt.emitted s ++ progressiveReports w formats cb.
Proof.
  unfold progressive, progressiveReports, fetchReports.
  destruct (selectFormat formats) as [format|];
    [|cbn; by rewrite app_nil_r].
  destruct (streamOk (progFetch w)); [|cbn; by rewrite app_nil_r].
  destruct (createOk (progFetch w)); [|cbn; by rewrite app_nil_r].
  cbn [negb andb]. unfold rt.bind, rt.create.
  match goal with |- context [copyStream ?f cb ?s0] =>
    pose proof (copyStream_emits f cb s0) as He;
    destruct (copyStream f cb s0) as [ok s'] end.
  cbn [fst snd rt.emitted] in He.
  unfold transcodeToMP4, rt.bind, rt.launch, rt.when.
  destruct ok, (needsSafariTranscode format && nonEmpty ffmpegPath),
    (transcodeOk w); cbn; exact He.
Qed.

Lemma Qltb_true x y : Qltb x y = true -> (x < y)%Q.
Proof.
  unfold Qltb. intros H. apply Qnot_le_lt. intros Hle.
  apply Qle_bool_iff in Hle. rewrite Hle in H. discriminate.
Qed.

Lemma Qltb_false x y : Qltb x y = false -> (y <= x)%Q.
Proof.
  unfold Qltb. intros H. apply Qle_bool_iff.
  by destruct (Qle_bool y x).
Qed.

Ltac clamp_cases :=
  unfold clamp01;
  repeat match goal with
         | |- context [Qltb ?a 0%Q] =>
             let E := fresh "E" in
             destruct (Qltb a 0%Q) eqn:E;
             [apply Qltb_true in E | apply Qltb_false in E]
         end;
  repeat match goal with
         | |- context [Qltb 1%Q ?b] =>
             let E := fresh "E" in
             destruct (Qltb 1%Q b) eqn:E;
             [apply Qltb_true in E | apply Qltb_false in E]
         end.

Lemma clamp01_bounds p : (0 <= clamp01 p <= 1)%Q.
Proof. clamp_cases; lra. Qed.

Lemma clamp01_mono p q : (p <= q)%Q -> (clamp01 p <= clamp01 q)%Q.
Proof. intros H. clamp_cases; lra. Qed.

Lemma weighted_reports base weight vals :
  concat (map (weightedProgress (Some sink) base weight) vals)
  = map (fun p => (base + clamp01 p * weight)%Q) vals.
Proof. induction vals as [|p l IH]; cbn; [done|]. by rewrite IH. Qed.

Lemma nondecreasing_map (f : Q -> Q) l :
  (forall p q, (p <= q)%Q -> (f p <= f q)%Q) ->
  nondecreasing l -> nondecreasing (map f l).
Proof.
  intros Hf. induction l as [|p l IH]; [done|].
  intros [Hp Hl]. split; [|by apply IH].
  apply Forall_map. eapply Forall_impl; [exact Hp|]. cbn. auto.
Qed.

Lemma nondecreasing_app l1 l2 :
  nondecreasing l1 -> nondecreasing l2 ->
  Forall (fun p => Forall (fun q => (p <= q)%Q) l2) l1 ->
  nondecreasing (l1 ++ l2).
Proof.
  induction l1 as [|p l1 IH]; [done|].
  intros [Hp H1] H2 Hx. pose proof (Forall_inv Hx) as Hp2.
  pose proof (Forall_inv_tail Hx) as Hx'. split; [|by apply IH].
  apply Forall_app. done.
Qed.

(** a run of values in [lo, mid] followed by a run of values in [mid, hi] *)
Lemma nondecreasing_phases lo mid hi l1 l2 :
  (lo <= mid)%Q -> (mid <= hi)%Q ->
  nondecreasing l1 /\ Forall (fun p => (lo <= p <= mid)%Q) l1 ->
  nondecreasing l2 /\ Forall (fun p => (mid <= p <= hi)%Q) l2 ->
  nondecreasing (l1 ++ l2)
  /\ Forall (fun p => (lo <= p <= hi)%Q) (l1 ++ l2).
Proof.
  intros Hlo Hhi [H1 B1] [H2 B2]. split.
  - apply nondecreasing_app; try done.
    eapply Forall_impl; [exact B1|]. cbn. intros p [_ Hp].
    eapply Forall_impl; [exact B2|]. cbn. intros q [Hq _]. lra.
  - apply Forall_app. split.
    + eapply Forall_impl; [exact B1|]. cbn. intros p [? ?]. lra.
    + eapply Forall_impl; [exact B2|]. cbn. intros p [? ?]. lra.
Qed.

Lemma reportedFractions_from_zero t reads :
  0 < t -> Forall (fun n => 0 <= n) reads -> sumZ reads < 2 ^ 63 ->
  nondecreasing (reportedFractions t 0 0 reads)
  /\ Forall (fun p => (0 <= p)%Q) (reportedFractions t 0 0 reads)
  /\ (sumZ reads <= t ->
      Forall (fun p => (0 <= p <= 1)%Q) (reportedFractions t 0 0 reads)).
Proof.
  intros Ht Hn Hsum.
  destruct (reportedFractions_bounds t reads 0 0%Q Ht ltac:(lia) Hn
              ltac:(lia)) as [Hb Hs].
  assert (H0 : (inject_Z 0 / inject_Z t == 0)%Q) by (by unfold Qeq).
  split; [done|]. split.
  - eapply Forall_impl; [exact Hb|]. cbn. intros p [Hp _].
    by rewrite H0 in Hp.
  - intros Hlen. eapply Forall_impl; [exact Hb|]. cbn. intros p [Hp1 Hp2].
    rewrite H0 in Hp1. split; [done|].
    apply Qle_trans with (1 := Hp2).
    rewrite <- (fraction_whole t Ht). apply fraction_le; lia.
Qed.

(** one weighted phase of the split-mux strategy *)
Lemma phase_reports w base weight :
  countable w -> (0 <= weight)%Q ->
  let l := fetchReports w (Some (weightedProgress (Some sink) base weight)) in
  nondecreasing l /\ Forall (fun p => (base <= p <= base + weight)%Q) l.
Proof.
  intros [Hn Hsum] Hw. cbv zeta. unfold fetchReports, streamReports.
  destruct (_ && _); [|by split].
  destruct (Z.ltb_spec 0 (contentLength w)) as [Ht|]; [|by split].
  rewrite weighted_reports.
  destruct (reportedFractions_from_zero _ _ Ht Hn Hsum) as (Hs & _ & _).
  split.
  - apply nondecreasing_map; [|done]. intros p q Hpq.
    pose proof (clamp01_mono p q Hpq).
    assert (clamp01 p * weight <= clamp01 q * weight)%Q
      by (by apply Qmult_le_compat_r).
    lra.
  - apply Forall_map, Forall_forall. intros p _. cbn.
    pose proof (clamp01_bounds p) as [H0 H1].
    assert (0 <= clamp01 p * weight)%Q by (by apply Qmult_le_0_compat).
    assert (clamp01 p * weight <= 1 * weight)%Q
      by (by apply Qmult_le_compat_r).
    lra.
Qed.

(** the full-range phase of the progressive strategy *)
Lemma sink_reports w :
  countable w -> withinLength w ->
  nondecreasing (fetchReports w (Some sink))
  /\ within01 (fetchReports w (Some sink)).
Proof.
  intros [Hn Hsum] Hlen. unfold fetchReports, streamReports, within01.
  destruct (_ && _); [|by split].
  destruct (Z.ltb_spec 0 (contentLength w)) as [Ht|]; [|by split].
  rewrite concat_map_sink.
  destruct (reportedFractions_from_zero _ _ Ht Hn Hsum) as (Hs & _ & H1).
  auto.
Qed.

Lemma ytdlp_ordered w ffmpegPath :
  nondecreasing (ytdlpReports w ffmpegPath (Some sink))
  /\ within01 (ytdlpReports w ffmpegPath (Some sink)).
Proof.
  unfold ytdlpReports, within01. destruct (_ && _); [|by split].
  cbn. split.
  - repeat split; repeat constructor; by unfold Qle.
  - repeat constructor; by unfold Qle.
Qed.

Lemma mux_ordered w :
  countable (videoFetch w) -> countable (audioFetch w) ->
  nondecreasing (muxReports w (Some sink))
  /\ within01 (muxReports w (Some sink)).
Proof.
  intros Hv Ha. unfold muxReports, within01.
  assert (Hlast : forall l, l = [] \/ l = [1%Q] ->
            nondecreasing l
            /\ Forall (fun p => ((3 # 4) + (1 # 5) <= p <= 1)%Q) l).
  { intros l [->| ->]; [by split|].
    split; [by repeat split|]. repeat constructor; by unfold Qle. }
  assert (Hphase2 : forall l, l = [] \/ l = [1%Q] ->
            let A := fetchReports (audioFetch w)
                       (Some (weightedProgress (Some sink) (3 # 4) (1 # 5)))
            in nondecreasing (A ++ l)
               /\ Forall (fun p => ((3 # 4) <= p <= 1)%Q) (A ++ l)).
  { intros l Hl. cbv zeta.
    apply (nondecreasing_phases (3 # 4) ((3 # 4) + (1 # 5)) 1);
      [by unfold Qle|by unfold Qle| |by apply Hlast].
    apply (phase_reports (audioFetch w) (3 # 4) (1 # 5) Ha).
    by unfold Qle. }
  assert (Hphase1 : forall l,
            nondecreasing l /\ Forall (fun p => ((3 # 4) <= p <= 1)%Q) l ->
            let V := fetchReports (videoFetch w)
                       (Some (weightedProgress (Some sink) 0 (3 # 4)))
            in nondecreasing (V ++ l)
               /\ Forall (fun p => (0 <= p <= 1)%Q) (V ++ l)).
  { intros l Hl. cbv zeta.
    apply (nondecreasing_phases 0 (3 # 4) 1);
      [by unfold Qle|by unfold Qle| |done].
    destruct (phase_reports (videoFetch w) 0 (3 # 4) Hv) as [H1 H2];
      [by unfold Qle|].
    split; [done|]. eapply Forall_impl; [exact H2|]. cbn. intros p. lra. }
  destruct (fetchFails (videoFetch w)).
  - apply Hphase1. by split.
  - apply Hphase1.
    destruct (fetchFails (audioFetch w)); [apply Hphase2; by left|].
    destruct (muxExitOk w); apply Hphase2; auto.
Qed.

Lemma tryMux_ordered w formats ffmpegPath :
  countable (videoFetch w) -> countable (audioFetch w) ->
  nondecreasing (tryMuxReports w formats ffmpegPath (Some sink))
  /\ within01 (tryMuxReports w formats ffmpegPath (Some sink)).
Proof.
  intros Hv Ha. unfold tryMuxReports, within01.
  destruct (nonEmpty ffmpegPath); [|by split].
  destruct (selectMuxFormats formats) as [[v|] [a|]]; try by split.
  by apply mux_ordered.
Qed.

Lemma progressive_ordered w formats :
  countable (progFetch w) -> withinLength (progFetch w) ->
  nondecreasing (progressiveReports w formats (Some sink))
  /\ within01 (progressiveReports w formats (Some sink)).
Proof.
  intros Hc Hl. unfold progressiveReports, within01.
  destruct (selectFormat formats); [|by split].
  by apply sink_reports.
Qed.

(** C2 (as amended).  For every acquisition job whose streams deliver
    counted reads (and whose progressive stream delivers no more than the
    length it announced), the values delivered to the job's progress
    callback are those of the strategies attempted, in order: external
    downloader, then split-mux, then progressive.  Within each strategy
    the values are non-decreasing and lie in [0,1]. *)
Theorem progress_is_monotone_within_each_strategy
        (w : World) (title : string) (formats : FormatList)
        (destDir ffmpegPath : string) (s : rt.Sys) :
  video w = Some (title, formats) ->
  countable (videoFetch w) -> countable (audioFetch w) ->
  countable (progFetch w) -> withinLength (progFetch w) ->
  let cb := Some sink in
  let s1 := snd (tryYtdlp w title destDir ffmpegPath cb s) in
  let s2 := snd (tryMux w title formats destDir ffmpegPath cb s1) in
  exists seg1 seg2 seg3,
    segment (DownloadForPreview w destDir ffmpegPath cb) s
    = seg1 ++ seg2 ++ seg3
    /\ seg1 = segment (tryYtdlp w title destDir ffmpegPath cb) s
    /\ (seg2 = []
        \/ seg2 = segment (tryMux w title formats destDir ffmpegPath cb) s1)
    /\ (seg3 = []
        \/ seg3
           = segment (progressive w title formats destDir ffmpegPath cb) s2)
    /\ (nondecreasing seg1 /\ within01 seg1)
    /\ (nondecreasing seg2 /\ within01 seg2)
    /\ (nondecreasing seg3 /\ within01 seg3).
Proof.
  intros Hvideo Hv Ha Hp Hlen. cbv zeta.
  rewrite (segment_emits _ _ _
             (tryYtdlp_emits w title destDir ffmpegPath (Some sink) s)).
  unfold segment at 1. unfold DownloadForPreview. rewrite Hvideo.
  unfold rt.bind.
  pose proof (tryYtdlp_emits w title destDir ffmpegPath (Some sink) s)
    as E1.
  destruct (tryYtdlp w title destDir ffmpegPath (Some sink) s) as [r1 s1].
  cbn [fst snd] in *.
  rewrite (segment_emits _ _ _
             (tryMux_emits w title formats destDir ffmpegPath (Some sink)
                s1)).
  exists (ytdlpReports w ffmpegPath (Some sink)).
  destruct r1 as [out1|]; cbv beta iota.
  - exists [], []. cbn [rt.ret snd]. rewrite E1, app_nil_r, drop_app_length.
    repeat split; auto; try apply ytdlp_ordered; constructor.
  - pose proof (tryMux_emits w title formats destDir ffmpegPath (Some sink)
                  s1) as E2.
    destruct (tryMux w title formats destDir ffmpegPath (Some sink) s1)
      as [r2 s2].
    cbn [fst snd] in *.
    rewrite (segment_emits _ _ _
               (progressive_emits w title formats destDir ffmpegPath
                  (Some sink) s2)).
    exists (tryMuxReports w formats ffmpegPath (Some sink)).
    destruct r2 as [out2|]; cbv beta iota.
    + exists []. cbn [rt.ret snd].
      rewrite E2, E1, app_nil_r, <- app_assoc, drop_app_length.
      repeat split; auto; try apply ytdlp_ordered;
        try (by apply tryMux_ordered); constructor.
    + exists (progressiveReports w formats (Some sink)).
      rewrite (progressive_emits w title formats destDir ffmpegPath
                 (Some sink) s2).
      rewrite E2, E1, <- !app_assoc, drop_app_length.
      repeat split; auto; try apply ytdlp_ordered;
        try (by apply tryMux_ordered); by apply progressive_ordered.
Qed.

(** C2, an instance: the job whose first two strategies fail. *)
Lemma progress_is_monotone_within_each_strategy_witness :
  exists seg1 seg2 seg3,
    segment (DownloadForPreview fallsThrough "/tmp/yt" "/usr/bin/ffmpeg"
               (Some sink)) rt.start
    = seg1 ++ seg2 ++ seg3
    /\ (nondecreasing seg1 /\ within01 seg1)
    /\ (nondecreasing seg2 /\ within01 seg2)
    /\ (nondecreasing seg3 /\ within01 seg3).
Proof.
  assert (Hc : countable wholeStream).
  { split; [repeat constructor; discriminate|reflexivity]. }
  assert (Hl : withinLength wholeStream) by discriminate.
  destruct (progress_is_monotone_within_each_strategy fallsThrough
              "My Video"
              [videoOnly720; videoOnly1080; aac128; opus160; av720]
              "/tmp/yt" "/usr/bin/ffmpeg" rt.start eq_refl Hc Hc Hc Hl)
    as (seg1 & seg2 & seg3 & H & _ & _ & _ & H1 & H2 & H3).
  exists seg1, seg2, seg3. auto.
Defined.

(** C2 (as stated) fails: the external downloader reports 0.1 and then 1.0
    although it exits with an error; the split-mux strategy that follows
    starts again at 0.3; its encoder fails after 0.95 and the progressive
    strategy starts again at 0.4. *)
Lemma progress_restarts_after_a_failed_strategy :
  segment (DownloadForPreview fallsThrough "/tmp/yt" "/usr/bin/ffmpeg"
             (Some sink)) rt.start
  = [(1 # 10); 1; (120 # 400); (225 # 400); (300 # 400); (300 # 400);
     (1660 # 2000); (1800 # 2000); (1900 # 2000); (1900 # 2000);
     (40 # 100); (75 # 100); (100 # 100); (100 # 100)]%Q
  /\ ~ progressAsStated fallsThrough "/tmp/yt" "/usr/bin/ffmpeg".
Proof.
  assert (E : segment (DownloadForPreview fallsThrough "/tmp/yt"
                         "/usr/bin/ffmpeg" (Some sink)) rt.start
              = [(1 # 10); 1; (120 # 400); (225 # 400); (300 # 400);
                 (300 # 400); (1660 # 2000); (1800 # 2000); (1900 # 2000);
                 (1900 # 2000); (40 # 100); (75 # 100); (100 # 100);
                 (100 # 100)]%Q) by (vm_compute; reflexivity).
  split; [exact E|].
  unfold progressAsStated. cbv zeta. rewrite E.
  intros [(_ & Hone & _) _].
  apply Forall_inv in Hone. revert Hone. by unfold Qle.
Qed.

End JobProgress.

(** ** Export: validation and progress *)

Section ExportPipeline.
Import ffmpeg exporting.




Example export_of_a_valid_request_starts_one_encoder :
  main.invocations
    (main.ExportClip main.IsAbsUnix joinPath loaded
       (main.mkExportOptions 10 15 false "clip" "/home/u/clips" "720p"))
  = 1%nat.
Proof. vm_compute. reflexivity. Qed.








End ExportPipeline.

(** ** File names *)

Section FileNames.
Import youtube naming.





Lemma within_refl s : within s s.
Proof. by split. Qed.




Lemma rev_app_bytes s1 : forall s2,
  bytes (String.rev_app s1 s2) = List.rev (bytes s1) ++ bytes s2
  /\ String.length (String.rev_app s1 s2)
     = (String.length s1 + String.length s2)%nat.
Proof.
  unfold bytes. induction s1 as [|c s1 IH]; intros s2; cbn; [done|].
  destruct (IH (String c s2)) as [-> ->]. cbn.
  split; [by rewrite <- app_assoc|lia].
Qed.

Lemma rev_both s : within (String.rev s) s /\ within s (String.rev s).
Proof.
  unfold within, String.rev.
  destruct (rev_app_bytes s EmptyString) as [-> ->]. cbn.
  rewrite app_nil_r, Nat.add_0_r.
  repeat split; try lia; intros c; by rewrite <- in_rev.
Qed.


Lemma within_rev s : within s (String.rev s).
Proof. apply rev_both. Qed.

Lemma takeBytes_within n : forall s,
  within (strings.takeBytes n s) s
  /\ (String.length (strings.takeBytes n s) <= n)%nat.
Proof.
  induction n as [|n IH]; intros s; cbn.
  - split; [|lia]. split; cbn; [done|lia].
  - destruct s as [|c s]; cbn; [split; [apply within_refl|lia]|].
    destruct (IH s) as [[Hb Hl] Hn]. repeat split; cbn; try lia.
    intros d [->|Hd]; auto.
Qed.








Example sanitizeFilename_sample :
  sanitizeFilename "  ..a/b\c:d*e?f<g>h|i. . " = "a_b_c_d_e_f_g_h_i. ".
Proof. reflexivity. Qed.

End FileNames.

(** ** Video identifiers *)

Section VideoIds.
Import videoid.

Lemma idAt_Some s id :
  idAt s = Some id ->
  String.length id = 11%nat /\ allIdChars id = true
  /\ (11 <= String.length s)%nat.
Proof.
  unfold idAt. destruct (_ && _) eqn:E; [|done]. intros [= <-].
  apply andb_prop in E as [El Ea]. apply Nat.eqb_eq in El.
  repeat split; try done.
  destruct (takeBytes_within 11 s) as [[_ Hl] _]. lia.
Qed.

Lemma dropBytes_length n : forall s,
  (String.length (strings.dropBytes n s) <= String.length s)%nat.
Proof.
  induction n as [|n IH]; intros [|c s]; cbn; try lia.
  specialize (IH s). lia.
Qed.

Lemma afterMarker_Some ms s id :
  afterMarker ms s = Some id ->
  String.length id = 11%nat /\ allIdChars id = true
  /\ (11 <= String.length s)%nat.
Proof.
  induction ms as [|m ms IH]; cbn; [done|].
  destruct (strings.HasPrefix s m); [|exact IH].
  destruct (idAt _) as [id'|] eqn:E; [|exact IH].
  intros [= <-]. apply idAt_Some in E as (? & ? & Hl).
  pose proof (dropBytes_length (String.length m) s). repeat split; try done.
  lia.
Qed.

Lemma findMarked_Some s id :
  findMarked s = Some id ->
  String.length id = 11%nat /\ allIdChars id = true
  /\ (11 <= String.length s)%nat.
Proof.
  induction s as [|c s IH]; cbn [findMarked].
  - destruct (afterMarker markers "") eqn:E; [|done].
    intros [= <-]. by apply afterMarker_Some in E.
  - destruct (afterMarker markers (String c s)) eqn:E.
    + intros [= <-]. by apply afterMarker_Some in E.
    + intros H. destruct (IH H) as (? & ? & ?). cbn. repeat split; auto.
Qed.

(** X1.  Whatever [ExtractVideoID] returns is eleven bytes long and made
    of letters, digits, underscores and hyphens only, and the URL it was
    given has at least eleven bytes: a shorter URL is always refused. *)
Theorem ExtractVideoID_returns_eleven_id_characters (url id : string) :
  ExtractVideoID url = rt.Ok id ->
  String.length id = 11%nat /\ allIdChars id = true
  /\ (11 <= String.length url)%nat.
Proof.
  unfold ExtractVideoID.
  destruct (findMarked url) as [id'|] eqn:E.
  - intros [= <-]. by apply findMarked_Some in E.
  - unfold wholeId. destruct (_ && _) eqn:E2; [|done]. intros [= <-].
    apply andb_prop in E2 as [El Ea]. apply Nat.eqb_eq in El.
    repeat split; try done. lia.
Qed.

Lemma ExtractVideoID_returns_eleven_id_characters_witness :
  String.length "dQw4w9WgXcQ" = 11%nat
  /\ allIdChars "dQw4w9WgXcQ" = true
  /\ (11 <= String.length "https://youtu.be/dQw4w9WgXcQ?t=3")%nat.
Proof.
  apply (ExtractVideoID_returns_eleven_id_characters
           "https://youtu.be/dQw4w9WgXcQ?t=3" "dQw4w9WgXcQ").
  reflexivity.
Defined.

Lemma HasPrefix_allIdChars m : forall s,
  strings.HasPrefix s m = true -> allIdChars s = true ->
  allIdChars m = true.
Proof.
  induction m as [|c m IH]; intros s; [done|].
  destruct s as [|d s]; cbn; [done|].
  intros H Hs. apply andb_prop in H as [Hc Hm].
  apply andb_prop in Hs as [Hd Hs]. apply Ascii.eqb_eq in Hc. subst d.
  rewrite Hd. cbn. by apply (IH s).
Qed.

Lemma afterMarker_idChars s :
  allIdChars s = true -> afterMarker markers s = None.
Proof.
  intros Hs. unfold markers. cbn [afterMarker].
  repeat match goal with
         | |- context [strings.HasPrefix s ?m] =>
             let E := fresh "E" in
             destruct (strings.HasPrefix s m) eqn:E;
             [apply HasPrefix_allIdChars in E; [discriminate E|exact Hs]|]
         end.
  done.
Qed.

Lemma findMarked_idChars s : allIdChars s = true -> findMarked s = None.
Proof.
  induction s as [|c s IH]; intros Hs; cbn [findMarked];
    rewrite (afterMarker_idChars _ Hs); [done|].
  cbn in Hs. apply andb_prop in Hs as [_ Hs]. by apply IH.
Qed.

(** X2.  A string of exactly eleven characters of the class is its own
    identifier: [ExtractVideoID] returns it unchanged. *)
Theorem ExtractVideoID_accepts_a_bare_id (id : string) :
  String.length id = 11%nat -> allIdChars id = true ->
  ExtractVideoID id = rt.Ok id.
Proof.
  intros Hl Ha. unfold ExtractVideoID, wholeId.
  rewrite (findMarked_idChars _ Ha), Hl, Ha. reflexivity.
Qed.

Lemma ExtractVideoID_accepts_a_bare_id_witness :
  ExtractVideoID "dQw4w9WgXcQ" = rt.Ok "dQw4w9WgXcQ".
Proof.
  apply ExtractVideoID_accepts_a_bare_id; reflexivity.
Defined.

Lemma takeBytes_app n id rest :
  String.length id = n -> strings.takeBytes n (id ++ rest) = id.
Proof.
  intros <-. induction id as [|c id IH]; [by destruct rest|].
  change (String c (strings.takeBytes (String.length id) (id ++ rest))
          = String c id).
  by rewrite IH.
Qed.

Lemma idAt_app id rest :
  String.length id = 11%nat -> allIdChars id = true ->
  idAt (id ++ rest) = Some id.
Proof.
  intros Hl Ha. unfold idAt.
  rewrite (takeBytes_app 11 id rest Hl), Hl, Ha. reflexivity.
Qed.

(** X3.  In a watch, short-link, embed or shorts URL the identifier is
    the eleven characters that follow the marker, whatever comes after
    them. *)
Theorem ExtractVideoID_reads_the_usual_urls (id rest : string) :
  String.length id = 11%nat -> allIdChars id = true ->
  ExtractVideoID ("https://www.youtube.com/watch?v=" ++ id ++ rest)
  = rt.Ok id
  /\ ExtractVideoID ("https://youtu.be/" ++ id ++ rest) = rt.Ok id
  /\ ExtractVideoID ("https://www.youtube.com/embed/" ++ id ++ rest)
     = rt.Ok id
  /\ ExtractVideoID ("https://www.youtube.com/shorts/" ++ id ++ rest)
     = rt.Ok id.
Proof.
  intros Hl Ha. pose proof (idAt_app id rest Hl Ha) as Hid.
  revert Hid. generalize (id ++ rest)%string. intros tail Hid.
  unfold ExtractVideoID.
  repeat split; cbv -[idAt]; by rewrite Hid.
Qed.

Lemma ExtractVideoID_reads_the_usual_urls_witness :
  ExtractVideoID "https://www.youtube.com/watch?v=dQw4w9WgXcQ&t=42s"
  = rt.Ok "dQw4w9WgXcQ".
Proof.
  apply (ExtractVideoID_reads_the_usual_urls "dQw4w9WgXcQ" "&t=42s");
    reflexivity.
Defined.

End VideoIds.

(** ** Video metadata *)

Section VideoInfo.
Import youtube videoid.

Lemma sourceResolution_inv formats : forall w h,
  let r := sourceResolution formats w h in
  w <= fst r
  /\ (forall f, In f formats -> Width f <= fst r)
  /\ (r = (w, h)
      \/ exists f, In f formats /\ Width f = fst r /\ Height f = snd r).
Proof.
  induction formats as [|f rest IH]; intros w h; cbn [sourceResolution].
  - cbn. repeat split; [lia|done|by left].
  - destruct (Z.ltb_spec w (Width f)) as [Hlt|Hge].
    + destruct (IH (Width f) (Height f)) as (H1 & H2 & H3). cbv zeta in *.
      split; [lia|]. split.
      * intros g [<-|Hg]; [done|by apply H2].
      * right. destruct H3 as [->|(g & Hg & ? & ?)].
        -- exists f. cbn. auto.
        -- exists g. cbn. auto.
    + destruct (IH w h) as (H1 & H2 & H3). cbv zeta in *.
      split; [done|]. split.
      * intros g [<-|Hg]; [lia|by apply H2].
      * destruct H3 as [->|(g & Hg & ? & ?)]; [by left|].
        right. exists g. cbn. auto.
Qed.

(** X4.  The source resolution that [GetVideoInfo] reports has a width
    that no listed format exceeds; it is (0, 0), or the width and height
    of one of the listed formats. *)
Theorem sourceResolution_is_the_widest_format (formats : FormatList) :
  let r := sourceResolution formats 0 0 in
  0 <= fst r
  /\ Forall (fun f => Width f <= fst r) formats
  /\ (r = (0, 0)
      \/ exists f, In f formats /\ Width f = fst r /\ Height f = snd r).
Proof.
  cbv zeta. destruct (sourceResolution_inv formats 0 0) as (H1 & H2 & H3).
  cbv zeta in *. split; [done|]. split; [|done].
  by apply List.Forall_forall.
Qed.

End VideoInfo.

(** ** The preview server *)

Section PreviewServer.
Import videoserver.

Variable Abs : string -> option string.
Variable stat : string -> Stat.
Variable openOk : string -> bool.

(** X5.  The server never answers with a file other than the current
    video, and only to a request under [/video/] that names the current
    identifier, for a regular file, and, when an allowed directory is set,
    only if the absolute path of the file starts with the absolute path of
    that directory. *)
Theorem ServeHTTP_serves_only_the_current_video
        (s : Server) (urlPath file : string) :
  ServeHTTP Abs stat openOk s urlPath = Content file ->
  file = currentVideo s /\ file <> ""
  /\ strings.HasPrefix urlPath "/video/" = true
  /\ requestedID urlPath = currentVideoID s
  /\ stat file = Regular
  /\ (allowedDir s = ""
      \/ exists absPath absAllowed,
           Abs file = Some absPath /\ Abs (allowedDir s) = Some absAllowed
           /\ strings.HasPrefix absPath absAllowed = true).
Proof.
  unfold ServeHTTP.
  destruct (strings.HasPrefix urlPath "/video/"); cbn [negb]; [|done].
  destruct (String.eqb_spec (requestedID urlPath) (currentVideoID s))
    as [Hid|]; cbn [negb orb]; [|done].
  destruct (String.eqb_spec (currentVideo s) "") as [|Hpath]; [done|].
  destruct (String.eqb_spec (allowedDir s) "") as [Hdir|Hdir]; cbn [negb].
  - destruct (stat (currentVideo s)) eqn:Hstat; try done.
    destruct (openOk (currentVideo s)); [|done].
    intros [= <-]. repeat split; auto.
  - destruct (Abs (currentVideo s)) as [absPath|] eqn:Ha; [|done].
    destruct (Abs (allowedDir s)) as [absAllowed|] eqn:Hb; [|done].
    destruct (strings.HasPrefix absPath absAllowed) eqn:Hp; cbn [negb];
      [|done].
    destruct (stat (currentVideo s)) eqn:Hstat; try done.
    destruct (openOk (currentVideo s)); [|done].
    intros [= <-]. repeat split; auto. right. eauto.
Qed.

(** X6.  A server that was just created, or whose video was cleared,
    answers every request with not-found, whatever files exist. *)
Theorem cleared_server_serves_nothing (s : Server) (urlPath : string) :
  ServeHTTP Abs stat openOk (ClearVideo s) urlPath = NotFound
  /\ ServeHTTP Abs stat openOk NewServer urlPath = NotFound.
Proof.
  unfold ServeHTTP, ClearVideo, NewServer.
  cbn -[strings.HasPrefix requestedID].
  destruct (strings.HasPrefix urlPath "/video/"); cbn [negb]; [|done].
  by rewrite !orb_true_r.
Qed.

Lemma HasPrefix_append p : forall s, strings.HasPrefix (p ++ s) p = true.
Proof.
  induction p as [|c p IH]; intros s; [done|].
  change (Ascii.eqb c c && strings.HasPrefix (p ++ s) p = true).
  by rewrite Ascii.eqb_refl, IH.
Qed.

Lemma dropBytes_append p : forall s,
  strings.dropBytes (String.length p) (p ++ s) = s.
Proof.
  induction p as [|c p IH]; intros s; [by destruct s|].
  change (strings.dropBytes (String.length p) (p ++ s) = s). apply IH.
Qed.

Lemma SplitByte_idChars id :
  videoid.allIdChars id = true -> strings.SplitByte id "/" = [id].
Proof.
  induction id as [|c id IH]; [done|].
  cbn [videoid.allIdChars strings.SplitByte]. intros H.
  apply andb_prop in H as [Hc Hid]. rewrite (IH Hid).
  destruct (Ascii.eqb_spec c "/") as [->|]; [discriminate Hc|done].
Qed.

(** an extracted identifier is not empty and holds no slash *)
Lemma extracted_id_shape url id :
  videoid.ExtractVideoID url = rt.Ok id ->
  String.length id = 11%nat /\ videoid.allIdChars id = true.
Proof.
  unfold videoid.ExtractVideoID.
  destruct (videoid.findMarked url) as [id'|] eqn:E.
  - intros [= <-]. apply findMarked_Some in E as (? & ? & _). by split.
  - unfold videoid.wholeId. destruct (_ && _) eqn:E2; [|done].
    intros [= <-]. apply andb_prop in E2 as [El Ea].
    apply Nat.eqb_eq in El. by split.
Qed.

(** X7.  The URL that the server hands out for an identifier returned by
    [ExtractVideoID] leads back to the file registered with it: when the
    file is a regular file that opens, and lies under the allowed
    directory if one is set, a request for [GetCurrentVideoURL] is answered
    with that file. *)
Theorem current_video_url_is_served
        (s : Server) (url id path : string) :
  videoid.ExtractVideoID url = rt.Ok id ->
  path <> "" -> stat path = Regular -> openOk path = true ->
  (allowedDir s = ""
   \/ exists absPath absAllowed,
        Abs path = Some absPath /\ Abs (allowedDir s) = Some absAllowed
        /\ strings.HasPrefix absPath absAllowed = true) ->
  let s' := SetCurrentVideo s path id in
  GetCurrentVideoURL s' = ("/video/" ++ id)%string
  /\ ServeHTTP Abs stat openOk s' (GetCurrentVideoURL s') = Content path.
Proof.
  intros Hid Hpath Hstat Hopen Hdir. cbv zeta.
  apply extracted_id_shape in Hid as (Hlen & Hchars).
  assert (Hne : String.eqb id "" = false).
  { destruct id; [discriminate Hlen|done]. }
  unfold GetCurrentVideoURL, SetCurrentVideo.
  cbn [currentVideoID currentVideo allowedDir]. rewrite Hne.
  split; [done|].
  unfold ServeHTTP, requestedID, strings.TrimPrefix.
  cbn [currentVideoID currentVideo allowedDir].
  rewrite (HasPrefix_append "/video/" id).
  rewrite (dropBytes_append "/video/" id).
  rewrite (SplitByte_idChars id Hchars), String.eqb_refl.
  destruct (String.eqb_spec path "") as [|_]; [done|]. cbn [negb orb].
  destruct Hdir as [->|(absPath & absAllowed & -> & -> & ->)];
    cbn [negb String.eqb]; rewrite Hstat, Hopen; [done|].
  by destruct (negb _).
Qed.

End PreviewServer.

(** X5, an instance. *)
Lemma ServeHTTP_serves_only_the_current_video_witness :
  "/tmp/yt/My Video-preview.mp4" = videoserver.currentVideo hosts.serving
  /\ videoserver.requestedID "/video/dQw4w9WgXcQ/extra"
     = videoserver.currentVideoID hosts.serving.
Proof.
  destruct (ServeHTTP_serves_only_the_current_video hosts.absOfClean
              hosts.everyFile hosts.opens hosts.serving
              "/video/dQw4w9WgXcQ/extra" "/tmp/yt/My Video-preview.mp4")
    as (H1 & _ & _ & H2 & _); [reflexivity|]. auto.
Defined.

(** X7, an instance. *)
Lemma current_video_url_is_served_witness :
  videoserver.ServeHTTP hosts.absOfClean hosts.everyFile hosts.opens
    (videoserver.SetCurrentVideo hosts.serving "/tmp/yt/clip.mp4"
       "dQw4w9WgXcQ")
    "/video/dQw4w9WgXcQ"
  = videoserver.Content "/tmp/yt/clip.mp4".
Proof.
  apply (current_video_url_is_served hosts.absOfClean hosts.everyFile
           hosts.opens hosts.serving
           "https://youtu.be/dQw4w9WgXcQ" "dQw4w9WgXcQ" "/tmp/yt/clip.mp4");
    try reflexivity; [discriminate|].
  right. exists "/tmp/yt/clip.mp4", "/tmp/yt". repeat split; reflexivity.
Defined.

(** ** The acquisition job as a whole *)

Section Acquisition.
Import youtube catalog fetching reporting.

Lemma filter_tier4_nil formats :
  List.filter tier4 formats = [] ->
  List.filter tier1 formats = [] /\ List.filter tier2 formats = []
  /\ List.filter tier3 formats = [].
Proof.
  induction formats as [|f rest IH]; [done|]. cbn [List.filter].
  unfold tier1, tier2, tier3, bothTracks, tier4 at 1.
  destruct (strings.Contains (MimeType f) "video"); [done|].
  rewrite !andb_false_r. cbn. exact IH.
Qed.

(** X8.  [selectFormat] returns nothing exactly when no variant is tagged
    as video. *)
Theorem selectFormat_fails_only_without_video (formats : FormatList) :
  selectFormat formats = None <-> List.filter tier4 formats = [].
Proof.
  unfold selectFormat. rewrite classify_filter. cbn [app]. split.
  - destruct (pickBestWithAudio _); [done|].
    destruct (pickBestWithAudio _); [done|].
    destruct (pickBestWithAudio _); [done|].
    rewrite firstVideo_head. by destruct (List.filter tier4 formats).
  - intros H. destruct (filter_tier4_nil formats H) as (-> & -> & ->).
    cbn. by rewrite firstVideo_head, H.
Qed.

Lemma tryYtdlp_effect w title destDir ffmpegPath cb s :
  let o := tryYtdlp w title destDir ffmpegPath cb s in
  let ran := ytdlpOnPath w && nonEmpty ffmpegPath in
  rt.launched (snd o) = ((if ran then 1 else 0) + rt.launched s)%nat
  /\ rt.files (snd o)
     = (if ran && ytdlpWrites w
        then {[previewPath title destDir]} ∪ rt.files s else rt.files s)
  /\ (forall out, fst o = Some out ->
      out = previewPath title destDir
      /\ ran = true /\ ytdlpExitOk w = true
      /\ previewPath title destDir ∈ rt.files (snd o)).
Proof.
  cbv zeta. unfold tryYtdlp, downloadWithYtdlp.
  destruct (ytdlpOnPath w); cbn [andb negb]; [|done].
  destruct (nonEmpty ffmpegPath); [|done].
  unfold rt.bind, rt.when, rt.exists_, rt.launch, call.
  destruct cb as [k|], (ytdlpWrites w), (ytdlpExitOk w); cbn;
    repeat case_bool_decide; cbn; repeat split; try done;
    try congruence; set_solver.
Qed.

Ltac idle_case := cbn; repeat split; try done; try lia; try congruence.

Ltac fetch_step :=
  match goal with
  | |- context [downloadToFile ?w ?d ?c ?s0] =>
      let Hr := fresh "Hr" in
      let Hf := fresh "Hf" in
      let Hl := fresh "Hl" in
      let r := fresh "r" in
      let s' := fresh "s" in
      destruct (downloadToFile_frame w d c s0) as (Hr & Hf & Hl);
      destruct (downloadToFile w d c s0) as [r s'];
      cbn [fst snd] in Hr, Hf, Hl
  end.

Lemma tryMux_effect w title formats destDir ffmpegPath cb s :
  let o := tryMux w title formats destDir ffmpegPath cb s in
  (rt.launched s <= rt.launched (snd o) <= 1 + rt.launched s)%nat
  /\ (nonEmpty ffmpegPath = false -> snd o = s /\ fst o = None)
  /\ (fst o = None -> rt.files (snd o) ⊆ rt.files s)
  /\ (forall out, fst o = Some out -> out = previewPath title destDir).
Proof.
  cbv zeta. unfold tryMux.
  destruct (nonEmpty ffmpegPath); [|idle_case].
  destruct (selectMuxFormats formats) as [[v|] [a|]];
    try (by idle_case).
  unfold rt.bind.
  pose proof (downloadAndMux_outcome w title v a destDir ffmpegPath cb s)
    as [He Hc]. cbv zeta in He, Hc.
  assert (Hl : (rt.launched s
                <= rt.launched
                     (snd (downloadAndMux w title v a destDir ffmpegPath
                             cb s))
                <= 1 + rt.launched s)%nat
               /\ forall out,
                    fst (downloadAndMux w title v a destDir ffmpegPath cb s)
                    = rt.Ok out -> out = previewPath title destDir).
  { unfold downloadAndMux, rt.bind.
    fetch_step. destruct (rt.isErr r); [cbn; split; [lia|done]|].
    fetch_step. destruct (rt.isErr r0); [cbn; split; [lia|done]|].
    unfold rt.launch, rt.when, call.
    destruct cb as [k|], (muxWrites w), (muxExitOk w);
      cbn -[previewPath]; (split; [lia|]); intros out Hout; congruence. }
  destruct (downloadAndMux w title v a destDir ffmpegPath cb s)
    as [[out|msg] s']; cbn [fst snd rt.isErr] in *.
  - split; [apply Hl|]. split; [done|]. split; [done|].
    intros out' [= <-]. by apply (proj2 Hl).
  - split; [apply Hl|]. split; [done|]. split; [|done].
    intros _. by apply Hc.
Qed.

Lemma progressive_effect w title formats destDir ffmpegPath cb s :
  let o := progressive w title formats destDir ffmpegPath cb s in
  (rt.launched s <= rt.launched (snd o) <= 1 + rt.launched s)%nat
  /\ (nonEmpty ffmpegPath = false -> rt.launched (snd o) = rt.launched s)
  /\ (rt.isErr (fst o) = true -> rt.files (snd o) ⊆ rt.files s).
Proof.
  cbv zeta. unfold progressive.
  destruct (selectFormat formats) as [format|]; [|idle_case].
  destruct (streamOk (progFetch w)); [|idle_case].
  destruct (createOk (progFetch w)); [|idle_case].
  cbn [negb]. unfold rt.bind, rt.create.
  match goal with |- context [copyStream ?f cb ?s0] =>
    destruct (copyStream_frame f cb s0) as (Hr & Hf & Hl);
    destruct (copyStream f cb s0) as [ok s'] end.
  cbn [fst snd rt.files rt.launched] in *.
  unfold transcodeToMP4, rt.bind, rt.launch, rt.when, rt.remove.
  destruct ok; cbn.
  - destruct (needsSafariTranscode format); cbn;
      [destruct (nonEmpty ffmpegPath); cbn;
       [destruct (transcodeOk w); cbn|]|];
      rewrite ?Hl; repeat split; try done; lia.
  - rewrite Hl, Hf. repeat split; try lia. intros _. set_solver.
Qed.

Lemma nonEmpty_empty : nonEmpty "" = false.
Proof. reflexivity. Qed.

(** X9.  One acquisition job starts at most three subprocesses (the
    external downloader, the mux encoder, the compatibility transcode), and
    none at all when no encoder path is given. *)
Theorem DownloadForPreview_starts_at_most_three_subprocesses
        (w : World) (destDir ffmpegPath : string)
        (cb : ProgressCallback) (s : rt.Sys) :
  let s' := snd (DownloadForPreview w destDir ffmpegPath cb s) in
  (rt.launched s <= rt.launched s' <= 3 + rt.launched s)%nat
  /\ (nonEmpty ffmpegPath = false -> rt.launched s' = rt.launched s).
Proof.
  cbv zeta. unfold DownloadForPreview.
  destruct (video w) as [[title formats]|]; [|cbn; split; [lia|done]].
  unfold rt.bind.
  destruct (tryYtdlp_effect w title destDir ffmpegPath cb s)
    as (L1 & _ & _). cbv zeta in L1.
  destruct (tryYtdlp w title destDir ffmpegPath cb s) as [r1 s1].
  cbn [fst snd] in *.
  assert (B1 : (rt.launched s <= rt.launched s1 <= 1 + rt.launched s)%nat
               /\ (nonEmpty ffmpegPath = false
                   -> rt.launched s1 = rt.launched s)).
  { rewrite L1. destruct (ytdlpOnPath w), (nonEmpty ffmpegPath); cbn;
      split; try lia; try done. }
  destruct r1 as [out1|]; [cbn; split; [lia|apply B1]|].
  destruct (tryMux_effect w title formats destDir ffmpegPath cb s1)
    as (L2 & N2 & _ & _). cbv zeta in L2, N2.
  destruct (tryMux w title formats destDir ffmpegPath cb s1) as [r2 s2].
  cbn [fst snd] in *.
  destruct r2 as [out2|].
  { cbn. split; [lia|]. intros Hne. destruct (N2 Hne) as [-> _].
    by apply B1. }
  destruct (progressive_effect w title formats destDir ffmpegPath cb s2)
    as (L3 & N3 & _). cbv zeta in L3, N3.
  split; [lia|]. intros Hne. rewrite (N3 Hne).
  destruct (N2 Hne) as [-> _]. by apply B1.
Qed.

(** X10.  When the job fails and the external downloader has left no
    file (it was not run, or wrote nothing), no file exists afterwards that
    did not exist before. *)
Theorem failed_job_leaves_no_new_file
        (w : World) (destDir ffmpegPath : string)
        (cb : ProgressCallback) (s : rt.Sys) :
  let o := DownloadForPreview w destDir ffmpegPath cb s in
  rt.isErr (fst o) = true ->
  ytdlpOnPath w && nonEmpty ffmpegPath && ytdlpWrites w = false ->
  rt.files (snd o) ⊆ rt.files s.
Proof.
  cbv zeta. unfold DownloadForPreview.
  destruct (video w) as [[title formats]|]; [|done].
  unfold rt.bind. intros Herr Hquiet.
  destruct (tryYtdlp_effect w title destDir ffmpegPath cb s)
    as (_ & F1 & _). cbv zeta in F1. rewrite Hquiet in F1.
  destruct (tryYtdlp w title destDir ffmpegPath cb s) as [r1 s1].
  cbn [fst snd] in *.
  destruct r1 as [out1|]; [discriminate Herr|].
  destruct (tryMux_effect w title formats destDir ffmpegPath cb s1)
    as (_ & _ & F2 & _). cbv zeta in F2.
  destruct (tryMux w title formats destDir ffmpegPath cb s1) as [r2 s2].
  cbn [fst snd] in *.
  destruct r2 as [out2|]; [discriminate Herr|].
  destruct (progressive_effect w title formats destDir ffmpegPath cb s2)
    as (_ & _ & F3).
  specialize (F3 Herr). specialize (F2 eq_refl). set_solver.
Qed.

(** X10, an instance: no encoder, and a progressive stream that is cut. *)
Lemma failed_job_leaves_no_new_file_witness :
  rt.files (snd (DownloadForPreview
                   (mkWorld (Some ("My Video", [samples.av720]))
                            false false false cutStream cutStream
                            false false cutStream false)
                   "/tmp/yt" "" (Some sink) rt.start))
  ⊆ rt.files rt.start.
Proof.
  apply (failed_job_leaves_no_new_file
           (mkWorld (Some ("My Video", [samples.av720]))
                    false false false cutStream cutStream
                    false false cutStream false)
           "/tmp/yt" "" (Some sink) rt.start); reflexivity.
Defined.

(** X11.  When the external downloader is run, exits with status 0, and
    its output file exists afterwards (written by it, or left there
    before), the job returns the preview path, that file exists, exactly
    one subprocess was started, and the progress values are 0.1 and 1. *)
Theorem external_downloader_success
        (w : World) (title : string) (formats : FormatList)
        (destDir ffmpegPath : string) (s : rt.Sys) :
  video w = Some (title, formats) ->
  ytdlpOnPath w = true -> nonEmpty ffmpegPath = true ->
  ytdlpExitOk w = true ->
  ytdlpWrites w = true \/ previewPath title destDir ∈ rt.files s ->
  let o := DownloadForPreview w destDir ffmpegPath (Some sink) s in
  fst o = rt.Ok (previewPath title destDir)
  /\ previewPath title destDir ∈ rt.files (snd o)
  /\ rt.launched (snd o) = S (rt.launched s)
  /\ segment (DownloadForPreview w destDir ffmpegPath (Some sink)) s
     = [(1 # 10)%Q; 1%Q].
Proof.
  intros Hvideo Hpath Hff Hexit Hfile. cbv zeta.
  unfold segment, DownloadForPreview, tryYtdlp, downloadWithYtdlp.
  rewrite Hvideo, Hpath, Hff, Hexit.
  unfold rt.bind, rt.when, rt.exists_, rt.launch, call.
  cbn -[previewPath].
  destruct (ytdlpWrites w); cbn -[previewPath];
    case_bool_decide as Hin; cbn -[previewPath];
    try (exfalso; apply Hin; set_solver).
  - repeat split; try done. rewrite <- app_assoc. apply drop_app_length.
  - repeat split; try done. rewrite <- app_assoc. apply drop_app_length.
Qed.

Lemma external_downloader_success_witness :
  fst (DownloadForPreview
         (mkWorld (Some ("My Video", [samples.av720])) true true true
                  cutStream cutStream false false cutStream false)
         "/tmp/yt" "/usr/bin/ffmpeg" (Some sink) rt.start)
  = rt.Ok (previewPath "My Video" "/tmp/yt").
Proof.
  apply (external_downloader_success
           (mkWorld (Some ("My Video", [samples.av720])) true true true
                    cutStream cutStream false false cutStream false)
           "My Video" [samples.av720] "/tmp/yt" "/usr/bin/ffmpeg" rt.start);
    try reflexivity.
  by left.
Defined.

(** X12.  When the external downloader is not installed and the split-mux
    strategy runs to its end (a pair is selected, both fetches and the
    encoder succeed), the job returns the preview path, neither temporary
    stream file exists afterwards, exactly one subprocess was started, and
    the last progress value is 1. *)
Theorem split_mux_success
        (w : World) (title : string) (formats : FormatList) (v a : Format)
        (destDir ffmpegPath : string) (s : rt.Sys) :
  video w = Some (title, formats) ->
  ytdlpOnPath w = false -> nonEmpty ffmpegPath = true ->
  selectMuxFormats formats = (Some v, Some a) ->
  fetchFails (videoFetch w) = false -> fetchFails (audioFetch w) = false ->
  muxExitOk w = true ->
  let o := DownloadForPreview w destDir ffmpegPath (Some sink) s in
  fst o = rt.Ok (previewPath title destDir)
  /\ (muxVideoPath title v destDir ∉ rt.files (snd o))
  /\ (muxAudioPath title a destDir ∉ rt.files (snd o))
  /\ rt.launched (snd o) = S (rt.launched s)
  /\ last (rt.emitted (snd o)) = Some 1%Q.
Proof.
  intros Hvideo Hpath Hff Hsel Hv Ha Hexit. cbv zeta.
  assert (H : exists s',
             DownloadForPreview w destDir ffmpegPath (Some sink) s
             = (rt.Ok (previewPath title destDir), s')
             /\ (muxVideoPath title v destDir ∉ rt.files s')
             /\ (muxAudioPath title a destDir ∉ rt.files s')
             /\ rt.launched s' = S (rt.launched s)
             /\ last (rt.emitted s') = Some 1%Q).
  { unfold DownloadForPreview, tryYtdlp, tryMux.
    rewrite Hvideo, Hpath, Hff, Hsel. cbn [andb]. unfold rt.bind at 1 2.
    cbn [rt.ret].
    unfold downloadAndMux, rt.bind.
    fetch_step. rewrite Hv in Hr.
    destruct (rt.isErr r); [discriminate Hr|].
    fetch_step. rewrite Ha in Hr0.
    destruct (rt.isErr r0); [discriminate Hr0|].
    rewrite Hexit. unfold rt.launch, rt.when, call, rt.remove.
    destruct (muxWrites w); cbn -[previewPath muxVideoPath muxAudioPath];
      eexists; (split; [reflexivity|]);
      cbn -[previewPath muxVideoPath muxAudioPath];
      unfold sink; rewrite last_snoc, Hl0, Hl; repeat split; try done;
      set_solver. }
  destruct H as (s' & -> & ? & ? & ? & ?). done.
Qed.

Lemma split_mux_success_witness :
  fst (DownloadForPreview
         (mkWorld (Some ("My Video",
                         [samples.videoOnly1080; samples.opus160]))
                  false false false wholeStream wholeStream true true
                  cutStream false)
         "/tmp/yt" "/usr/bin/ffmpeg" (Some sink) rt.start)
  = rt.Ok (previewPath "My Video" "/tmp/yt").
Proof.
  apply (split_mux_success
           (mkWorld (Some ("My Video",
                           [samples.videoOnly1080; samples.opus160]))
                    false false false wholeStream wholeStream true true
                    cutStream false)
           "My Video" [samples.videoOnly1080; samples.opus160]
           samples.videoOnly1080 samples.opus160
           "/tmp/yt" "/usr/bin/ffmpeg" rt.start); reflexivity.
Defined.

Lemma selectFormat_top_tier formats :
  List.filter tier1 formats <> [] ->
  exists f, selectFormat formats = Some f /\ tier1 f = true.
Proof.
  intros Hne. unfold selectFormat. rewrite classify_filter. cbn [app].
  destruct (pickBestWithAudio (List.filter tier1 formats)) as [f|] eqn:E.
  - exists f. split; [done|].
    destruct (pickBy_best betterWithAudio betterWithAudio_irrefl
                betterWithAudio_chain _ f E) as [Hin _].
    by apply filter_In in Hin as [_ ?].
  - by apply pickBy_None in E.
Qed.

(** X13.  When the formats hold an MP4 variant with avc1 video, mp4a
    audio and both tracks, the progressive strategy starts no subprocess
    (the file needs no compatibility transcode), and the file it returns
    is the sanitised title with the extension [.mp4], which exists. *)
Theorem compatible_pick_is_not_transcoded
        (w : World) (title : string) (formats : FormatList)
        (destDir ffmpegPath : string) (cb : ProgressCallback) (s : rt.Sys) :
  List.filter tier1 formats <> [] ->
  let o := progressive w title formats destDir ffmpegPath cb s in
  rt.launched (snd o) = rt.launched s
  /\ (rt.isErr (fst o) = false ->
      fst o = rt.Ok (Join destDir (sanitizeFilename title ++ ".mp4"))
      /\ Join destDir (sanitizeFilename title ++ ".mp4")
         ∈ rt.files (snd o)).
Proof.
  intros Hne. cbv zeta.
  destruct (selectFormat_top_tier formats Hne) as (f & Hsel & Htier).
  unfold tier1 in Htier.
  apply andb_prop in Htier as [Htier Hcodecs].
  apply andb_prop in Htier as [_ Hmp4].
  apply andb_prop in Hcodecs as [Havc Haac].
  unfold progressive. rewrite Hsel.
  unfold needsSafariTranscode, extensionFromMimeType.
  rewrite Hmp4, Havc, Haac. cbn [andb String.eqb Ascii.eqb Bool.eqb].
  destruct (streamOk (progFetch w)); [|idle_case].
  destruct (createOk (progFetch w)); [|idle_case].
  cbn [negb]. unfold rt.bind, rt.create.
  match goal with |- context [copyStream ?f cb ?s0] =>
    destruct (copyStream_frame f cb s0) as (Hr & Hf & Hl);
    destruct (copyStream f cb s0) as [ok s'] end.
  cbn [fst snd rt.files rt.launched] in *.
  destruct ok; cbn -[Join sanitizeFilename].
  - split; [done|]. intros _. split; [done|]. rewrite Hf. set_solver.
  - split; [done|]. discriminate.
Qed.

Lemma compatible_pick_is_not_transcoded_witness :
  rt.launched
    (snd (progressive samples.fallsThrough "My Video"
            [samples.videoOnly720; samples.av720] "/tmp/yt"
            "/usr/bin/ffmpeg" (Some sink) rt.start))
  = rt.launched rt.start.
Proof.
  apply (compatible_pick_is_not_transcoded samples.fallsThrough "My Video"
           [samples.videoOnly720; samples.av720] "/tmp/yt"
           "/usr/bin/ffmpeg" (Some sink) rt.start).
  discriminate.
Defined.







End Acquisition.

(** ** The volume of progress reports *)

Section ReportVolume.
Import youtube reporting volume.

Lemma coalesced_below1 trace : forall last (j : nat),
  (inject_Z (Z.of_nat j) * (1 # 100) <= last)%Q ->
  coalesced last trace ->
  (length (below1 trace) <= 99 - j)%nat.
Proof.
  induction trace as [|p rest IH]; intros last j Hj Hco; cbn; [lia|].
  destruct Hco as [Hstep Hrest].
  destruct (Qltb p 1) eqn:Hp; cbn [length].
  - apply Qltb_true in Hp.
    assert (Hup : (inject_Z (Z.of_nat (S j)) * (1 # 100) <= p)%Q).
    { rewrite Nat2Z.inj_succ. unfold Z.succ. rewrite inject_Z_plus.
      change (inject_Z 1) with 1%Q.
      destruct Hstep as [Hstep|Hstep]; lra. }
    assert (Hsmall : (S j <= 99)%nat).
    { assert (Hq : (inject_Z (Z.of_nat (S j)) < inject_Z 100)%Q)
        by (change (inject_Z 100) with 100%Q; lra).
      rewrite <- Zlt_Qlt in Hq. lia. }
    specialize (IH p (S j) Hup Hrest). fold (below1 rest). lia.
  - apply Qltb_false in Hp.
    assert (Hup : (inject_Z (Z.of_nat 100) * (1 # 100) <= p)%Q)
      by (change (inject_Z (Z.of_nat 100)) with 100%Q; lra).
    specialize (IH p 100%nat Hup Hrest). fold (below1 rest). lia.
Qed.

(** X15.  However many reads a transfer takes, the progress reader calls
    the job's callback at most 99 times with a fraction below 1. *)
Theorem at_most_99_reports_below_one (w : Fetch) (s : rt.Sys) :
  (length (below1 (segment (copyStream w (Some sink)) s)) <= 99)%nat.
Proof.
  rewrite (segment_emits _ _ _ (copyStream_emits w (Some sink) s)).
  unfold streamReports. destruct (0 <? contentLength w); [|cbn; lia].
  rewrite concat_map_sink.
  pose proof (coalesced_below1 _ 0%Q 0%nat
                ltac:(change (inject_Z (Z.of_nat 0)) with 0%Q; lra)
                (reportedFractions_coalesced (contentLength w)
                   (reads w) 0 0%Q)).
  lia.
Qed.

End ReportVolume.

(** ** The ffmpeg installer *)

Section Installation.
Import youtube fetching reporting installer installing hosts.

Lemma installer_copyThrough_effect total reads : forall read s,
  installer.copyThrough total read reads s
  = (tt, rt.mkSys (rt.files s)
                  (rt.emitted s ++ copyReports total read reads)
                  (rt.launched s)).
Proof.
  induction reads as [|n rest IH]; intros read s; cbn.
  - rewrite app_nil_r. by destruct s.
  - unfold rt.bind, rt.emit. cbn. rewrite IH. cbn.
    by rewrite <- app_assoc.
Qed.

Lemma downloadFile_effect h dest cbSet s :
  downloadFile h dest cbSet s
  = (if fetchFails (download h)
     then rt.Err (if negb (streamOk (download h)) then "download failed"
                  else if negb (createOk (download h)) then "create failed"
                  else "copy failed")
     else rt.Ok tt,
     rt.mkSys (if streamOk (download h) && createOk (download h)
               then {[dest]} ∪ rt.files s else rt.files s)
              (rt.emitted s ++ archiveReports h cbSet)
              (rt.launched s)).
Proof.
  unfold downloadFile, archiveReports, fetchFails.
  destruct (streamOk (download h)); cbn;
    [|rewrite app_nil_r; by destruct s].
  destruct (createOk (download h)); cbn;
    [|rewrite app_nil_r; by destruct s].
  unfold rt.bind, rt.create. cbn.
  destruct cbSet, (0 <? contentLength (download h)); cbn;
    rewrite ?installer_copyThrough_effect; cbn;
    rewrite ?app_nil_r; by destruct (copyOk (download h)).
Qed.

Lemma copyReports_bounds t reads : forall r,
  0 < t -> 0 <= r -> Forall (fun n => 0 <= n) reads ->
  r + sumZ reads < 2 ^ 63 -> r + sumZ reads <= t ->
  nondecreasing (copyReports t r reads)
  /\ Forall (fun p => (inject_Z r / inject_Z t * (9 # 10) <= p
                       /\ p <= 9 # 10)%Q)
            (copyReports t r reads).
Proof.
  induction reads as [|n rest IH]; intros r Ht Hr Hn Hsum Hlen.
  - split; constructor.
  - pose proof (Forall_inv Hn) as Hn0.
    pose proof (Forall_inv_tail Hn) as Hrest. cbv beta in Hn0.
    cbn [sumZ fold_right] in Hsum, Hlen. fold (sumZ rest) in Hsum, Hlen.
    assert (Hrest0 : 0 <= sumZ rest).
    { clear -Hrest. induction Hrest; cbn; [lia|]. fold (sumZ l). lia. }
    cbn [copyReports]. rewrite wrap64_small by lia.
    destruct (IH (r + n) Ht ltac:(lia) Hrest ltac:(lia) ltac:(lia))
      as [Hs Hb].
    assert (Hle : (inject_Z r / inject_Z t
                   <= inject_Z (r + n) / inject_Z t)%Q)
      by (apply fraction_le; lia).
    assert (Hone : (inject_Z (r + n) / inject_Z t <= 1)%Q).
    { rewrite <- (fraction_whole t Ht). apply fraction_le; lia. }
    split.
    + split; [|done]. eapply Forall_impl; [exact Hb|]. cbn.
      by intros p [H1 _].
    + constructor.
      * split; lra.
      * eapply Forall_impl; [exact Hb|]. cbn. intros p [H1 H2].
        split; [lra|done].
Qed.

Lemma archiveReports_bounds h cbSet :
  countable (download h) -> withinLength (download h) ->
  nondecreasing (archiveReports h cbSet)
  /\ Forall (fun p => (0 <= p <= 9 # 10)%Q) (archiveReports h cbSet).
Proof.
  intros [Hn Hsum] Hlen. unfold archiveReports.
  destruct (_ && _ && _ && (0 <? _)) eqn:E; [|split; constructor].
  apply andb_prop in E as [_ Ht]. apply Z.ltb_lt in Ht.
  destruct (copyReports_bounds (contentLength (download h))
              (reads (download h)) 0 Ht ltac:(lia) Hn ltac:(lia)
              ltac:(unfold withinLength in Hlen; lia)) as [Hs Hb].
  split; [done|]. eapply Forall_impl; [exact Hb|]. cbn. intros p [H1 H2].
  split; [|done]. apply Qle_trans with (2 := H1).
  assert (H0 : (inject_Z 0 / inject_Z (contentLength (download h)) == 0)%Q)
    by (by unfold Qeq).
  rewrite H0. lra.
Qed.

Lemma GetFFmpegPath_frame h s : snd (GetFFmpegPath h s) = s.
Proof. unfold GetFFmpegPath. by destruct (lookPath h). Qed.

Lemma IsInstalled_frame h s : IsInstalled h s = (fst (IsInstalled h s), s).
Proof.
  unfold IsInstalled, rt.bind. pose proof (GetFFmpegPath_frame h s) as H.
  destruct (GetFFmpegPath h s) as [p s']. cbn in *. by subst.
Qed.

Lemma extract_effect h s :
  extract h s
  = (extracts h,
     rt.mkSys (if writesBinary h then {[cachedPath h]} ∪ rt.files s
               else rt.files s)
              (rt.emitted s)
              (match goos h with
               | linux => S (rt.launched s)
               | _ => rt.launched s
               end)).
Proof.
  unfold extract, extracts, writesBinary, extractZip, extractLinuxTarXz.
  destruct s as [fs em la].
  destruct (goos h); try (by destruct (unzip h));
    by destruct (tarWrote h).
Qed.

(** the whole installation on a supported system without ffmpeg *)
Lemma Install_effect h cbSet s :
  fst (IsInstalled h s) = false -> goos h <> other ->
  let got := streamOk (download h) && createOk (download h) in
  let fetched := negb (fetchFails (download h)) in
  Install h cbSet s
  = (if fetched && extracts h then rt.Ok tt
     else rt.Err (if fetched then "failed to extract FFmpeg"
                  else "failed to download FFmpeg"),
     rt.mkSys
       (if fetched
        then (if writesBinary h
              then {[cachedPath h]} ∪ ({[archivePath h]} ∪ rt.files s)
              else {[archivePath h]} ∪ rt.files s) ∖ {[archivePath h]}
        else if got then {[archivePath h]} ∪ rt.files s else rt.files s)
       (rt.emitted s
        ++ (if cbSet then [0%Q] else []) ++ archiveReports h cbSet
        ++ (if fetched && cbSet then [(9 # 10)%Q] else [])
        ++ (if fetched && extracts h && cbSet then [1%Q] else []))
       (if fetched
        then match goos h with
             | linux => S (rt.launched s)
             | _ => rt.launched s
             end
        else rt.launched s)).
Proof.
  intros Hno Hos. cbv zeta. unfold Install.
  unfold rt.bind at 1. rewrite IsInstalled_frame, Hno.
  assert (Hgo : forall (X : Type) (a b : X),
             match goos h with other => a | _ => b end = b)
    by (intros; by destruct (goos h)).
  rewrite Hgo. clear Hgo.
  unfold rt.bind at 1.
  assert (Hf : fetchFails (download h)
               = negb (streamOk (download h) && createOk (download h)
                       && copyOk (download h))).
  { unfold fetchFails.
    by destruct (streamOk _), (createOk _), (copyOk _). }
  destruct cbSet; cbn [rt.when]; unfold rt.emit, rt.ret;
    cbv beta iota; unfold rt.bind at 1;
    rewrite downloadFile_effect; cbn [rt.files rt.emitted rt.launched];
    destruct (fetchFails (download h)) eqn:Ef; cbn [rt.isErr negb andb];
    rewrite ?app_nil_r;
    try (rewrite Hf in Ef;
         destruct (streamOk (download h)), (createOk (download h));
         cbn in Ef |- *; rewrite <- ?app_assoc; cbn; rewrite ?app_nil_r;
         reflexivity || (f_equal; f_equal; by rewrite <- app_assoc)).
  - assert (Hg : streamOk (download h) && createOk (download h) = true).
    { rewrite Hf in Ef. by destruct (streamOk _), (createOk _). }
    rewrite Hg. unfold rt.bind. cbn [rt.files rt.emitted rt.launched].
    rewrite extract_effect. cbn [rt.files rt.emitted rt.launched].
    destruct (extracts h); cbn [negb]; unfold rt.remove; cbn;
      rewrite <- ?app_assoc; cbn; rewrite ?app_nil_r; reflexivity.
  - assert (Hg : streamOk (download h) && createOk (download h) = true).
    { rewrite Hf in Ef. by destruct (streamOk _), (createOk _). }
    rewrite Hg. unfold rt.bind. cbn [rt.files rt.emitted rt.launched].
    rewrite extract_effect. cbn [rt.files rt.emitted rt.launched].
    destruct (extracts h); cbn [negb]; unfold rt.remove; cbn;
      rewrite <- ?app_assoc; cbn; rewrite ?app_nil_r; reflexivity.
Qed.

Lemma supported_or_not (os : GOOS) : os = other \/ os <> other.
Proof. destruct os; auto. Qed.

Lemma Install_idle h cbSet s :
  fst (IsInstalled h s) = true ->
  Install h cbSet s
  = (rt.Ok tt,
     rt.mkSys (rt.files s)
              (rt.emitted s ++ (if cbSet then [1%Q] else []))
              (rt.launched s)).
Proof.
  intros H. unfold Install. unfold rt.bind at 1.
  rewrite IsInstalled_frame, H.
  destruct cbSet; cbn; [done|]. rewrite app_nil_r. by destruct s.
Qed.

Lemma Install_unsupported h cbSet s :
  fst (IsInstalled h s) = false -> goos h = other ->
  Install h cbSet s = (rt.Err "unsupported operating system", s).
Proof.
  intros H Hos. unfold Install. unfold rt.bind at 1.
  rewrite IsInstalled_frame, H, Hos. done.
Qed.

Lemma append_inj_l (d a b : string) : (d ++ a = d ++ b)%string -> a = b.
Proof. induction d as [|c d IH]; cbn; [done|]. intros [= H]. auto. Qed.

Lemma cachedPath_archivePath h : cachedPath h <> archivePath h.
Proof.
  unfold cachedPath, archivePath, Join. intros H.
  apply append_inj_l in H. by destruct (goos h).
Qed.

Lemma IsInstalled_files h s :
  fst (IsInstalled h s)
  = match lookPath h with
    | Some path => nonEmpty path
    | None => bool_decide (cachedPath h ∈ rt.files s)
    end.
Proof.
  unfold IsInstalled, GetFFmpegPath, rt.bind, rt.exists_, rt.ret.
  destruct (lookPath h); [done|]. cbn.
  case_bool_decide; [|done].
  unfold cachedPath, Join, nonEmpty. by destruct (cacheDir h).
Qed.

(** X16.  With a callback installed, a download whose reads deliver no more
    than the announced length makes the installer report values that never
    decrease and stay within 0..1; an installation that returns without
    error has reported 1 last. *)
Theorem Install_progress_rises_to_one (h : Host) (s : rt.Sys) :
  countable (download h) -> withinLength (download h) ->
  let trace := segment (Install h true) s in
  nondecreasing trace /\ within01 trace
  /\ (fst (Install h true s) = rt.Ok tt -> endsWithOne trace).
Proof.
  intros Hc Hl. cbv zeta.
  destruct (fst (IsInstalled h s)) eqn:Hin.
  { rewrite Install_idle by done.
    rewrite (segment_emits (Install h true) s [1%Q])
      by (by rewrite Install_idle).
    split; [by split|]. split.
    - constructor; [lra|constructor].
    - intros _. exists [], 1%Q. by split. }
  destruct (supported_or_not (goos h)) as [Hos|Hos].
  { rewrite Install_unsupported by done.
    rewrite (segment_emits (Install h true) s [])
      by (rewrite Install_unsupported by done; by rewrite app_nil_r).
    split; [done|]. split; [constructor|discriminate]. }
  pose proof (Install_effect h true s Hin Hos) as He. cbv zeta in He.
  rewrite He. cbn [fst].
  erewrite segment_emits; [|rewrite He; reflexivity].
  destruct (archiveReports_bounds h true Hc Hl) as [Hs Hb].
  rewrite !andb_true_r.
  assert (Htail : forall l, l = [] \/ l = [(9 # 10)%Q]
                            \/ l = [(9 # 10)%Q; 1%Q] ->
            nondecreasing l
            /\ Forall (fun p => (9 # 10 <= p <= 1)%Q) l).
  { intros l [->|[->| ->]]; [split; constructor| |].
    - split; [by split|]. constructor; [lra|constructor].
    - split.
      + split; [|by split]. constructor; [lra|constructor].
      + constructor; [lra|]. constructor; [lra|constructor]. }
  assert (Hhead : nondecreasing ([0%Q] ++ archiveReports h true)
                  /\ Forall (fun p => (0 <= p <= 9 # 10)%Q)
                            ([0%Q] ++ archiveReports h true)).
  { cbn. split.
    - split; [|done]. eapply Forall_impl; [exact Hb|]. cbn. by intros p [? _].
    - constructor; [lra|done]. }
  set (tl := (if negb (fetchFails (download h)) then [(9 # 10)%Q] else [])
             ++ (if negb (fetchFails (download h)) && extracts h
                 then [1%Q] else [])).
  assert (Htl : tl = [] \/ tl = [(9 # 10)%Q] \/ tl = [(9 # 10)%Q; 1%Q]).
  { unfold tl. destruct (fetchFails (download h)), (extracts h); cbn; auto. }
  destruct (nondecreasing_phases 0 (9 # 10) 1 _ _ ltac:(lra) ltac:(lra)
              Hhead (Htail tl Htl)) as [Hn Hw].
  rewrite <- app_assoc in Hn, Hw. split; [exact Hn|]. split; [exact Hw|].
  intros Hok. unfold tl.
  destruct (negb (fetchFails (download h)) && extracts h) eqn:E;
    [|discriminate].
  apply andb_prop in E as [-> _].
  exists ([0%Q] ++ archiveReports h true ++ [(9 # 10)%Q]), 1%Q.
  split; [|done]. by rewrite <- !app_assoc.
Qed.

(** X16, an instance: a Linux host without ffmpeg whose download arrives
    whole. *)
Lemma Install_progress_rises_to_one_witness :
  nondecreasing (segment (Install freshLinux true) rt.start)
  /\ within01 (segment (Install freshLinux true) rt.start)
  /\ (fst (Install freshLinux true rt.start) = rt.Ok tt ->
      endsWithOne (segment (Install freshLinux true) rt.start)).
Proof.
  assert (Hc : countable wholeStream).
  { split; [repeat constructor; discriminate|reflexivity]. }
  assert (Hl : withinLength wholeStream) by discriminate.
  exact (Install_progress_rises_to_one freshLinux rt.start Hc Hl).
Defined.

(** X17.  Once the archive has been downloaded, the installer removes it
    before it returns, whether the extraction succeeds or fails. *)
Theorem Install_removes_the_downloaded_archive
        (h : Host) (cbSet : bool) (s : rt.Sys) :
  fst (IsInstalled h s) = false -> goos h <> other ->
  fetchFails (download h) = false ->
  archivePath h ∉ rt.files (snd (Install h cbSet s)).
Proof.
  intros Hin Hos Hf. rewrite (Install_effect h cbSet s Hin Hos).
  cbv zeta. rewrite Hf. cbn. set_solver.
Qed.

(** X17, an instance. *)
Lemma Install_removes_the_downloaded_archive_witness :
  archivePath freshLinux ∉ rt.files (snd (Install freshLinux true rt.start)).
Proof.
  apply Install_removes_the_downloaded_archive;
    [reflexivity|discriminate|reflexivity].
Defined.

(** X18.  A download that fails after the archive file was created makes
    the installer return an error and leave the partial archive in the
    cache directory: the removal is registered only after a successful
    download. *)
Theorem Install_leaves_a_partial_archive
        (h : Host) (cbSet : bool) (s : rt.Sys) :
  fst (IsInstalled h s) = false -> goos h <> other ->
  failsMidTransfer (download h) = true ->
  rt.isErr (fst (Install h cbSet s)) = true
  /\ archivePath h ∈ rt.files (snd (Install h cbSet s)).
Proof.
  intros Hin Hos Hf. rewrite (Install_effect h cbSet s Hin Hos).
  cbv zeta. unfold failsMidTransfer in Hf. unfold fetchFails.
  destruct (streamOk (download h)), (createOk (download h)),
    (copyOk (download h)); try discriminate.
  cbn. split; [done|set_solver].
Qed.

(** X18, an instance: the download to a macOS host is cut. *)
Lemma Install_leaves_a_partial_archive_witness :
  rt.isErr (fst (Install cutMac true rt.start)) = true
  /\ archivePath cutMac ∈ rt.files (snd (Install cutMac true rt.start)).
Proof.
  apply Install_leaves_a_partial_archive;
    [reflexivity|discriminate|reflexivity].
Defined.

(** X19.  After an installation that returns without error ffmpeg is
    installed, provided a path found by the system lookup is not empty and,
    on Linux, a tar that exits with status 0 has written the binary. *)
Theorem successful_Install_leaves_ffmpeg_installed
        (h : Host) (cbSet : bool) (s : rt.Sys) :
  lookPath h <> Some EmptyString ->
  (goos h = linux -> tarOk h = true -> tarWrote h = true) ->
  fst (Install h cbSet s) = rt.Ok tt ->
  fst (IsInstalled h (snd (Install h cbSet s))) = true.
Proof.
  intros Hlook Htar Hok.
  destruct (fst (IsInstalled h s)) eqn:Hin.
  { rewrite Install_idle by done. cbn.
    rewrite IsInstalled_files in Hin |- *. exact Hin. }
  destruct (supported_or_not (goos h)) as [Hos|Hos].
  { rewrite Install_unsupported in Hok by done. discriminate. }
  rewrite (Install_effect h cbSet s Hin Hos) in Hok |- *.
  cbv zeta in Hok |- *. cbn [fst snd] in Hok |- *.
  destruct (negb (fetchFails (download h)) && extracts h) eqn:E;
    [|discriminate].
  apply andb_prop in E as [Ef Ex]. rewrite Ef.
  assert (Hw : writesBinary h = true).
  { unfold writesBinary, extracts in *.
    destruct (goos h) eqn:Eos; try (by destruct (unzip h)); auto. }
  rewrite Hw. rewrite IsInstalled_files in Hin |- *.
  destruct (lookPath h) as [path|].
  - destruct path; [done|discriminate].
  - cbn [rt.files]. apply bool_decide_eq_true.
    pose proof (cachedPath_archivePath h). set_solver.
Qed.

(** X19, an instance. *)
Lemma successful_Install_leaves_ffmpeg_installed_witness :
  fst (IsInstalled freshLinux (snd (Install freshLinux true rt.start)))
  = true.
Proof.
  apply successful_Install_leaves_ffmpeg_installed;
    [discriminate|reflexivity|reflexivity].
Defined.

(** X20.  The installer changes no file other than the binary and the
    archive in its cache directory, and it starts a subprocess, one, only
    on Linux. *)
Theorem Install_touches_only_its_cache_files
        (h : Host) (cbSet : bool) (s : rt.Sys) (p : string) :
  ownPath h p = false ->
  (p ∈ rt.files (snd (Install h cbSet s)) <-> p ∈ rt.files s)
  /\ (rt.launched (snd (Install h cbSet s)) <= S (rt.launched s))%nat
  /\ (goos h <> linux ->
      rt.launched (snd (Install h cbSet s)) = rt.launched s).
Proof.
  intros Hp. unfold ownPath in Hp. apply orb_false_elim in Hp as [Hc Ha].
  apply String.eqb_neq in Hc, Ha.
  destruct (fst (IsInstalled h s)) eqn:Hin.
  { rewrite Install_idle by done. cbn. split; [done|]. split; [lia|done]. }
  destruct (supported_or_not (goos h)) as [Hos|Hos].
  { rewrite Install_unsupported by done. cbn.
    split; [done|]. split; [lia|done]. }
  rewrite (Install_effect h cbSet s Hin Hos). cbv zeta. cbn [snd rt.files
    rt.launched].
  split; [|split].
  - destruct (negb (fetchFails (download h))), (writesBinary h),
      (streamOk (download h) && createOk (download h)); set_solver.
  - destruct (negb (fetchFails (download h))), (goos h); lia.
  - intros Hl. by destruct (negb (fetchFails (download h))), (goos h).
Qed.

(** X20, an instance: a file beside the cache directory. *)
Lemma Install_touches_only_its_cache_files_witness :
  ("/home/u/notes.txt" ∈ rt.files (snd (Install freshLinux true rt.start))
   <-> "/home/u/notes.txt" ∈ rt.files rt.start)
  /\ (rt.launched (snd (Install freshLinux true rt.start))
      <= S (rt.launched rt.start))%nat
  /\ (goos freshLinux <> linux ->
      rt.launched (snd (Install freshLinux true rt.start))
      = rt.launched rt.start).
Proof.
  apply Install_touches_only_its_cache_files. reflexivity.
Defined.

End Installation.

(** ** Loading a video: metadata, download, preview server *)

Section Loading.
Import youtube fetching reporting videoserver app hosts.

Variable Abs : string -> option string.
Variable stat : string -> Stat.
Variable openOk : string -> bool.

Lemma ffmpegPathOf_frame a s : snd (ffmpegPathOf a s) = s.
Proof.
  unfold ffmpegPathOf. destruct (ffmpegInstaller a) as [h|]; [|done].
  unfold rt.bind. rewrite IsInstalled_frame.
  destruct (fst (installer.IsInstalled h s)); [|done].
  apply GetFFmpegPath_frame.
Qed.




Lemma cleared_is_silent srv urlPath :
  ServeHTTP Abs stat openOk (ClearVideo srv) urlPath = NotFound.
Proof.
  unfold ServeHTTP, ClearVideo.
  cbn -[strings.HasPrefix requestedID].
  destruct (strings.HasPrefix urlPath "/video/"); cbn [negb]; [|done].
  by rewrite !orb_true_r.
Qed.

(** X22.  When a load fails after the metadata was found, the preview
    server answers every request with not-found afterwards, also for the
    video that was loaded before; when it fails earlier, the server and the
    files are as they were. *)
Theorem failed_load_empties_the_player
        (a : Loader) (url : string) (srv : Server) (s : rt.Sys) :
  let out := LoadVideo a url srv s in
  rt.isErr (fst (fst out)) = true ->
  if reachesDownload a url
  then forall urlPath,
         ServeHTTP Abs stat openOk (snd (fst out)) urlPath = NotFound
  else snd (fst out) = srv /\ snd out = s.
Proof.
  cbv zeta. unfold LoadVideo, reachesDownload, nonEmpty.
  destruct (String.eqb (previewBaseURL a) "").
  { intros _. cbn. by destruct (previewErr a). }
  cbn [negb andb].
  destruct (GetVideoInfo a url) as [id|msg]; [|done].
  cbn [rt.isErr negb]. unfold rt.bind.
  destruct (ffmpegPathOf a s) as [ffmpegPath s1].
  destruct (DownloadForPreview _ _ _ _ s1) as [[videoPath|msg] s2];
    [done|].
  intros _ urlPath. apply cleared_is_silent.
Qed.


End Loading.

(** X22, an instance: the only stream is cut while a video is on show. *)
Lemma failed_load_empties_the_player_witness :
  videoserver.ServeHTTP hosts.absOfClean hosts.everyFile hosts.opens
    (snd (fst (app.LoadVideo hosts.unlucky "https://youtu.be/dQw4w9WgXcQ"
                 hosts.serving hosts.withEncoder)))
    "/video/dQw4w9WgXcQ"
  = videoserver.NotFound.
Proof.
  exact (failed_load_empties_the_player hosts.absOfClean hosts.everyFile
           hosts.opens hosts.unlucky "https://youtu.be/dQw4w9WgXcQ"
           hosts.serving hosts.withEncoder eq_refl "/video/dQw4w9WgXcQ").
Defined.


(** ** The completion event of an export *)

Section Completion.
Import ffmpeg main.

Variable IsAbs : string -> bool.
Variable outputPathOf : string -> string -> string.

Lemma progress_is_not_completion ps path :
  ~ In (ExportComplete path) (map ExportProgress ps).
Proof. rewrite in_map_iff. by intros (p & Hp & _). Qed.

(** X21.  [ExportClip] emits the completion event exactly when it returns
    no error: then the caller has emitted progress 1 and, last, the
    completion event with the output path, after one encoder process; when
    it returns an error no completion event is emitted.  The reader of the
    encoder's output never emits it. *)
Theorem ExportClip_completes_exactly_on_success
        (a : App) (opts : ExportOptions) :
  let e := ExportClip IsAbs outputPathOf a opts in
  (forall path, ~ In (ExportComplete path) (fromReader e))
  /\ match error e with
     | None =>
         fromCaller e
         = [ExportProgress 1;
            ExportComplete (outputPathOf (OutputDir opts) (Filename opts))]
         /\ invocations e = 1%nat
     | Some _ => forall path, ~ In (ExportComplete path) (fromCaller e)
     end.
Proof.
  cbv zeta. unfold ExportClip.
  destruct (ffmpegInstaller a) as [ffmpegPath|]; [|split; intros ? []].
  destruct (String.eqb ffmpegPath ""); [split; intros ? []|].
  destruct (String.eqb (currentVideoPath a) ""); [split; intros ? []|].
  destruct (IsAbs (OutputDir opts)); [|split; intros ? []]. cbn [negb].
  destruct (tier (Quality opts)) as [[[maxHeight crf] preset] audioBitrate].
  match goal with |- context [TrimVideoWithProgress ?f ?x ?n ?o true] =>
    assert (Ho : rt.isErr (result (TrimVideoWithProgress f x n o true))
                 = false ->
                 waiterCalls (TrimVideoWithProgress f x n o true) = [1%Q]
                 /\ started (TrimVideoWithProgress f x n o true) = 1%nat);
    [|destruct (TrimVideoWithProgress f x n o true)
        as [[[]|msg] n0 rc wc]]
  end.
  { unfold TrimVideoWithProgress.
    repeat match goal with
           | |- context [if ?c then failed _ _ _ else _] =>
               destruct c; [discriminate|]
           end.
    by split. }
  - cbn in *. destruct (Ho eq_refl) as [-> ->].
    split; [intros path; apply progress_is_not_completion|by split].
  - cbn. split; intros path; apply progress_is_not_completion.
Qed.

End Completion.

(** ** Sanitised names *)

Section LeadingDot.
Import youtube.

Lemma trimFront_head p1 s c r :
  strings.trimFront p1 strings.noRune2 strings.noRune3 s = String c r ->
  p1 c = false.
Proof.
  induction s as [|c0 r0 IH]; [done|].
  cbn [strings.trimFront]. destruct (p1 c0) eqn:E0; [exact IH|].
  destruct r0 as [|c1 [|c2 r2]]; cbn; intros [= <- _]; exact E0.
Qed.

Lemma takeBytes_head n c r :
  strings.HasPrefix (strings.takeBytes n (String c r)) "." = true ->
  c = "."%char.
Proof.
  destruct n; cbn; [done|]. intros H. apply andb_prop in H as [H _].
  by apply Ascii.eqb_eq in H.
Qed.

(** X24.  A sanitised name never starts with a dot. *)
Theorem sanitizeFilename_has_no_leading_dot (name : string) :
  strings.HasPrefix (sanitizeFilename name) "." = false.
Proof.
  unfold sanitizeFilename. cbv zeta.
  set (t := strings.TrimSpace _). unfold strings.TrimByte. cbv zeta.
  set (u := String.rev _).
  destruct (strings.trimFront (Ascii.eqb ".") strings.noRune2
              strings.noRune3 u) as [|c r] eqn:E.
  { by destruct (200 <? _). }
  apply trimFront_head in E.
  assert (Hc : strings.HasPrefix (String c r) "." = false).
  { cbn. rewrite Ascii.eqb_sym. by rewrite E. }
  destruct (200 <? _); [|exact Hc].
  destruct (strings.HasPrefix (strings.takeBytes 200 (String c r)) ".")
    eqn:Ht; [|done].
  apply takeBytes_head in Ht. subst c. discriminate E.
Qed.

End LeadingDot.
